(** * feedback-analyzer: the worker of [src/index.ts], embedded and verified

    The worker answers dashboard requests from a D1 table [feedback],
    caches the serialized views in a KV namespace and classifies seeded
    records with Workers AI.  The three bindings of [Env] (DB, CACHE, AI)
    are modelled as explicit state (the table and the KV store) together
    with a per-request description of how the outside world behaves (which
    calls fail, what the models answer).  Every handler is a computation in
    a small state-and-exception monad; every call on a binding is logged on
    a trace so that orderings can be stated. *)

From Stdlib Require Import ZArith String Ascii List Bool Lia.
From Stdlib Require Import DecimalString SpecFloat.
From stdpp Require Import base gmap strings list sorting.

Set Warnings "-register-all".
Import ListNotations.
Local Open Scope string_scope.
Local Open Scope Z_scope.

(** ** Strings

    Texts are strings of bytes; the worker's own texts (the seed data, the
    keywords, the keys) are ASCII, for which bytes and the code units of a
    JavaScript string coincide. *)

Module Str.

(** [s.includes(needle)] *)
Fixpoint includes (needle s : string) : bool :=
  String.prefix needle s ||
  match s with
  | EmptyString => false
  | String _ rest => includes needle rest
  end.

Definition lower_ascii (c : ascii) : ascii :=
  let n := nat_of_ascii c in
  if (Nat.leb 65 n && Nat.leb n 90)%bool then ascii_of_nat (n + 32) else c.

(** [s.toLowerCase()] on ASCII texts: the letters A to Z are lowered and
    every other character is kept.  Outside ASCII the source's
    [toLowerCase] follows the Unicode case mapping, which this function
    does not; a property about the lowered text is stated for ASCII texts
    ([ascii_text] below). *)
Fixpoint toLowerCase (s : string) : string :=
  match s with
  | EmptyString => EmptyString
  | String c rest => String (lower_ascii c) (toLowerCase rest)
  end.

(** [s.substring(0, n)] *)
Fixpoint take (n : nat) (s : string) : string :=
  match n, s with
  | O, _ => EmptyString
  | _, EmptyString => EmptyString
  | S n', String c rest => String c (take n' rest)
  end.

(** [parts.join(sep)], also SQLite's [GROUP_CONCAT(x, sep)] *)
Fixpoint join (sep : string) (parts : list string) : string :=
  match parts with
  | [] => EmptyString
  | [p] => p
  | p :: rest => p ++ sep ++ join sep rest
  end.

Definition of_N (n : N) : string := NilZero.string_of_uint (N.to_uint n).

Definition of_Z (z : Z) : string :=
  match z with
  | Zneg p => "-" ++ of_N (Npos p)
  | _ => of_N (Z.to_N z)
  end.

End Str.

(** ** JSON values and [JSON.stringify] *)

Inductive json : Type :=
| JNull
| JNum (z : Z)
| JStr (s : string)
| JArr (items : list json)
| JObj (fields : list (string * json)).

Module Json.

Definition hex_digit (n : nat) : ascii :=
  ascii_of_nat (if Nat.ltb n 10 then 48 + n else 87 + n).

(** the double quote and the backslash *)
Definition dq : string := String (ascii_of_nat 34) EmptyString.
Definition bs : ascii := ascii_of_nat 92.

Definition escape_char (c : ascii) : string :=
  let n := nat_of_ascii c in
  if Nat.eqb n 34 then String bs dq
  else if Nat.eqb n 92 then String bs (String bs EmptyString)
  else if Nat.eqb n 8 then String bs "b"
  else if Nat.eqb n 9 then String bs "t"
  else if Nat.eqb n 10 then String bs "n"
  else if Nat.eqb n 12 then String bs "f"
  else if Nat.eqb n 13 then String bs "r"
  else if Nat.ltb n 32 then
    String bs "u00" ++ String (hex_digit (n / 16)) (String (hex_digit (n mod 16)) EmptyString)
  else String c EmptyString.

Fixpoint escape (s : string) : string :=
  match s with
  | EmptyString => EmptyString
  | String c rest => escape_char c ++ escape rest
  end.

Definition quote (s : string) : string := dq ++ escape s ++ dq.

Fixpoint stringify (j : json) : string :=
  match j with
  | JNull => "null"
  | JNum z => Str.of_Z z
  | JStr s => quote s
  | JArr items => "[" ++ Str.join "," (map stringify items) ++ "]"
  | JObj fields =>
      "{" ++ Str.join "," (map (fun kv => quote (fst kv) ++ ":" ++ stringify (snd kv)) fields) ++ "}"
  end.

End Json.

(** ** JavaScript numbers

    A Number is an IEEE 754 binary64 value; the arithmetic is the Standard
    Library's specification of it ([SpecFloat], precision 53, [emax] 1024). *)

Module Num.

Definition prec : Z := 53.
Definition emax : Z := 1024.

Definition add : spec_float -> spec_float -> spec_float := SFadd prec emax.
Definition div : spec_float -> spec_float -> spec_float := SFdiv prec emax.
Definition ltb : spec_float -> spec_float -> bool := SFltb.

(** the Number denoted by an integer (a literal, a column value, a
    length): the nearest binary64 value *)
Definition of_Z (z : Z) : spec_float := binary_normalize prec emax z 0 false.

(** the literal [0.6] *)
Definition lit_0_6 : spec_float := S754_finite false 5404319552844595 (-53).

(** [x || d] on numbers: zero and NaN are falsy *)
Definition truthy (x : spec_float) : bool :=
  match x with
  | S754_zero _ | S754_nan => false
  | _ => true
  end.

(** The integer [n] for which [n / 10^f - m * 2^e] is as close to zero as
    possible, the larger one when there are two. *)
Definition nearest_scaled (f : nat) (m : positive) (e : Z) : Z :=
  let num := Zpos m * 10 ^ Z.of_nat f in
  match e with
  | Zneg k => (2 * num + 2 ^ Zpos k) / (2 * 2 ^ Zpos k)
  | _ => num * 2 ^ e
  end.

(** the decimal digits of [n] with a point before the last [f] of them *)
Definition place_point (f : nat) (n : Z) : string :=
  let m := Str.of_Z n in
  match f with
  | O => m
  | _ =>
      let k := String.length m in
      let m' := if Nat.leb k f then string_of_list_ascii (repeat "0"%char (f + 1 - k)) ++ m else m in
      let k' := String.length m' in
      String.substring 0 (k' - f) m' ++ "." ++ String.substring (k' - f) f m'
  end.

Definition ge_1e21 (m : positive) (e : Z) : bool :=
  match e with
  | Zneg k => (10 ^ 21 * 2 ^ Zpos k <=? Zpos m)%Z
  | _ => (10 ^ 21 <=? Zpos m * 2 ^ e)%Z
  end.

Section ToFixed.
(** [Number::toString], which [toFixed] falls back on for infinities and
    for magnitudes from 10^21 on; it belongs to the runtime *)
Variable numberToString : spec_float -> string.

(** [x.toFixed(f)] *)
Definition toFixed (f : nat) (x : spec_float) : string :=
  match x with
  | S754_nan => "NaN"
  | S754_infinity _ => numberToString x
  | S754_zero _ => place_point f 0
  | S754_finite s m e =>
      if ge_1e21 m e then numberToString x
      else (if s then "-" else "") ++ place_point f (nearest_scaled f m e)
  end.
End ToFixed.

End Num.

(** ** The data model *)

(** A row of the table [feedback].  Nullable columns are options; the
    timestamps are seconds on the store's clock.  The columns [user_id],
    [ai_themes] and [upvotes] are never read or written by the worker. *)
Record Feedback : Type := {
  id : Z;
  title : string;
  description : option string;
  source : string;
  user_email : option string;
  sentiment : option string;
  category : option string;
  created_at : Z;
  resolved_at : option Z;
  priority : string;
}.

(** The values bound by the INSERT statement of [seedDatabase]. *)
Record NewFeedback : Type := {
  nf_title : string;
  nf_description : string;
  nf_source : string;
  nf_user_email : string;
  nf_sentiment : string;
  nf_category : string;
  nf_priority : string;
  nf_offset : Z;
}.

(** An entry of the KV namespace: the stored text and the instant from
    which [get] no longer returns it. *)
Record KVEntry : Type := { kv_value : string; kv_expires : Z }.

(** The statements the worker prepares. *)
Inductive Query : Type :=
| QTotal | QUnresolved | QScores | QRepeatCount
| QTopIssues | QRecent | QRepeatUsers | QLongestUnresolved | QInsightsSample.

(** The calls a handler makes on its bindings. *)
Inductive Call : Type :=
| KvGet (key : string)
| KvPut (key value : string) (ttl : Z)
| KvDelete (key : string)
| DbRead (q : Query)
| DbInsert (f : NewFeedback)
| AiRun (model : string).

(** A call together with whether it succeeded. *)
Definition Event : Type := Call * bool.

Record State : Type := {
  rows : list Feedback;
  last_row_id : Z;
  kv : gmap string KVEntry;
  clock : Z;
  trace : list Event;
}.

(** Results of a computation that may throw an [Error] with a message. *)
Inductive res (A : Type) : Type :=
| Ok (a : A)
| Throw (message : string).
Arguments Ok {A} a.
Arguments Throw {A} message.

(** What the models return: an object whose fields may be missing. *)
Record SentimentOutput : Type := { label : option string; score : option spec_float }.
Record ChatOutput : Type := { response : option string }.

(** How the bindings of [Env] behave while one request is served: for the
    KV namespace and the database, whether a call rejects (and with which
    message); for Workers AI, what a run returns ([None] for a null
    result). *)
Record Env : Type := {
  kv_get_error : string -> option string;
  kv_put_error : string -> option string;
  kv_delete_error : string -> option string;
  db_read_error : Query -> option string;
  db_insert_error : NewFeedback -> option string;
  ai_classify : string -> res (option SentimentOutput);
  ai_chat : string -> string -> res (option ChatOutput);
}.

(** Functions of the runtime that the worker calls and does not define. *)
Record Runtime : Type := {
  numberToString : spec_float -> string;
  toISOString : Z -> string;
  datetimeText : Z -> string;
}.

Record Response : Type := { status : Z; content_type : string; body : string }.

(** ** The monad of handlers *)

Definition M (A : Type) : Type := State -> res A * State.

#[export] Instance M_ret : MRet M := fun A a s => (Ok a, s).
#[export] Instance M_bind : MBind M := fun A B f m s =>
  match m s with
  | (Ok a, s') => f a s'
  | (Throw e, s') => (Throw e, s')
  end.

Definition throw {A} (message : string) : M A := fun s => (Throw message, s).

(** [try { m } catch (error) { h error.message }] *)
Definition try_catch {A} (m : M A) (h : string -> M A) : M A := fun s =>
  match m s with
  | (Throw e, s') => h e s'
  | r => r
  end.

Definition log (c : Call) (ok : bool) : M unit := fun s =>
  (Ok tt, {| rows := rows s; last_row_id := last_row_id s; kv := kv s;
             clock := clock s; trace := trace s ++ [(c, ok)] |}).

Definition get_state : M State := fun s => (Ok s, s).

Definition set_kv (m : gmap string KVEntry) : M unit := fun s =>
  (Ok tt, {| rows := rows s; last_row_id := last_row_id s; kv := m;
             clock := clock s; trace := trace s |}).

Definition set_rows (l : list Feedback) (last : Z) : M unit := fun s =>
  (Ok tt, {| rows := l; last_row_id := last; kv := kv s;
             clock := clock s; trace := trace s |}).

(** ** The bindings *)

Module Binding.
Section WithEnv.
Variable env : Env.

(** [env.CACHE.get(key)]: the stored text, or null when the key is absent
    or its entry has expired *)
Definition cache_get (key : string) : M (option string) :=
  match kv_get_error env key with
  | Some e => log (KvGet key) false;; throw e
  | None =>
      log (KvGet key) true;;
      s ← get_state;
      mret (match kv s !! key with
            | Some entry => if clock s <? kv_expires entry then Some (kv_value entry) else None
            | None => None
            end)
  end.

(** [env.CACHE.put(key, value, { expirationTtl: ttl })] *)
Definition cache_put (key value : string) (ttl : Z) : M unit :=
  match kv_put_error env key with
  | Some e => log (KvPut key value ttl) false;; throw e
  | None =>
      log (KvPut key value ttl) true;;
      s ← get_state;
      set_kv (<[key := {| kv_value := value; kv_expires := clock s + ttl |}]> (kv s))
  end.

(** [env.CACHE.delete(key)] *)
Definition cache_delete (key : string) : M unit :=
  match kv_delete_error env key with
  | Some e => log (KvDelete key) false;; throw e
  | None =>
      log (KvDelete key) true;;
      s ← get_state;
      set_kv (delete key (kv s))
  end.

(** [env.DB.prepare(q).all()] or [.first()]: [view] is what the statement
    selects from the table *)
Definition db_read {A} (q : Query) (view : State -> A) : M A :=
  match db_read_error env q with
  | Some e => log (DbRead q) false;; throw e
  | None =>
      s ← get_state;
      log (DbRead q) true;;
      mret (view s)
  end.

(** the INSERT of [seedDatabase]; the result is [meta.last_row_id] *)
Definition db_insert (f : NewFeedback) : M Z :=
  match db_insert_error env f with
  | Some e => log (DbInsert f) false;; throw e
  | None =>
      log (DbInsert f) true;;
      s ← get_state;
      let i := last_row_id s + 1 in
      set_rows (rows s ++ [{| id := i; title := nf_title f;
                              description := Some (nf_description f);
                              source := nf_source f;
                              user_email := Some (nf_user_email f);
                              sentiment := Some (nf_sentiment f);
                              category := Some (nf_category f);
                              created_at := clock s + nf_offset f;
                              resolved_at := None;
                              priority := nf_priority f |}]) i;;
      mret i
  end.

(** [env.AI.run('@cf/huggingface/distilbert-sst-2-int8', { text })] *)
Definition ai_run_classifier (text : string) : M (option SentimentOutput) :=
  match ai_classify env text with
  | Ok r => log (AiRun "@cf/huggingface/distilbert-sst-2-int8") true;; mret r
  | Throw e => log (AiRun "@cf/huggingface/distilbert-sst-2-int8") false;; throw e
  end.

(** [env.AI.run('@cf/meta/llama-3-8b-instruct', { messages })] *)
Definition ai_run_chat (system user : string) : M (option ChatOutput) :=
  match ai_chat env system user with
  | Ok r => log (AiRun "@cf/meta/llama-3-8b-instruct") true;; mret r
  | Throw e => log (AiRun "@cf/meta/llama-3-8b-instruct") false;; throw e
  end.

End WithEnv.
End Binding.

(** ** The statements, as functions of the table

    SQLite leaves three things open that the functions below fix: groups
    come in the order of the first row of each, ORDER BY keeps that order
    among equal keys, and GROUP_CONCAT and a bare column take the rows of a
    group in table order.  The properties proved later do not depend on
    these choices unless they say so. *)

Module Sql.

Definition unresolved (r : Feedback) : bool :=
  match resolved_at r with None => true | Some _ => false end.

(** [ORDER BY key DESC], by insertion from the right so that equal keys
    keep their order *)
Fixpoint insert_desc {A} (key : A -> Z) (x : A) (l : list A) : list A :=
  match l with
  | [] => [x]
  | y :: rest => if key y <=? key x then x :: l else y :: insert_desc key x rest
  end.

Definition order_by_desc {A} (key : A -> Z) (l : list A) : list A :=
  foldr (insert_desc key) [] l.

Definition order_by_asc {A} (key : A -> Z) (l : list A) : list A :=
  order_by_desc (fun x => - key x) l.

(** [GROUP BY key]: the distinct keys with their rows *)
Definition group_by (key : Feedback -> option string) (l : list Feedback)
  : list (option string * list Feedback) :=
  map (fun k => (k, filter (fun r => key r = k) l)) (remove_dups (map key l)).

(** [SELECT COUNT( * ) FROM feedback] *)
Definition count_all (l : list Feedback) : Z := Z.of_nat (length l).

(** [SELECT COUNT( * ) FROM feedback WHERE resolved_at IS NULL] *)
Definition count_unresolved (l : list Feedback) : Z :=
  Z.of_nat (length (filter (fun r => unresolved r = true) l)).

(** [CASE WHEN sentiment = 'positive' THEN 8.0 WHEN sentiment = 'neutral'
    THEN 5.0 ELSE 2.0 END] *)
Definition score_of (r : Feedback) : Z :=
  match sentiment r with
  | Some s => if String.eqb s "positive" then 8
              else if String.eqb s "neutral" then 5 else 2
  | None => 2
  end.

(** the rows of the third statement of [getStats], as Numbers *)
Definition scores (l : list Feedback) : list spec_float :=
  map (fun r => Num.of_Z (score_of r)) l.

(** [SELECT COUNT(DISTINCT user_email) FROM feedback WHERE user_email IN
    (SELECT user_email FROM feedback GROUP BY user_email HAVING
    COUNT( * ) > 1)]; a NULL email is in no IN list and is not counted *)
Definition repeat_user_count (l : list Feedback) : Z :=
  let repeated :=
    map fst (filter (fun g => (1 < length (snd g))%nat) (group_by user_email l)) in
  let selected :=
    filter (fun r => is_Some (user_email r) ∧ user_email r ∈ repeated) l in
  Z.of_nat (length (remove_dups (omap user_email selected))).

Record TopIssue : Type := { ti_title : string; ti_count : Z; ti_sentiment : option string }.

(** the statement of [getTopIssues] *)
Definition top_issues (l : list Feedback) : list TopIssue :=
  let selected := filter (fun r => unresolved r = true) l in
  let grouped := group_by (fun r => Some (title r)) selected in
  let out := omap (fun g =>
               match snd g with
               | r :: _ => Some {| ti_title := title r;
                                   ti_count := Z.of_nat (length (snd g));
                                   ti_sentiment := sentiment r |}
               | [] => None
               end) grouped in
  take 5 (order_by_desc ti_count out).

(** the statement of [getRecentIssues] *)
Definition recent (l : list Feedback) : list Feedback :=
  take 5 (order_by_desc created_at l).

Record RepeatUser : Type := { ru_user_email : string; complaint_count : Z; issues : string }.

(** the statement of [getRepeatUsers] *)
Definition repeat_users (l : list Feedback) : list RepeatUser :=
  let selected := filter (fun r => unresolved r = true ∧ is_Some (user_email r)) l in
  let grouped := group_by user_email selected in
  let having := filter (fun g => (1 < length (snd g))%nat) grouped in
  let out := omap (fun g =>
               match fst g with
               | Some u => Some {| ru_user_email := u;
                                   complaint_count := Z.of_nat (length (snd g));
                                   issues := Str.join " | " (map title (snd g)) |}
               | None => None
               end) having in
  take 5 (order_by_desc complaint_count out).

Record Unresolved : Type := { lu_title : string; lu_created_at : Z; lu_source : string; days_open : Z }.

(** the statement of [getLongestUnresolved]; [now] is [julianday('now')]
    and the CAST truncates the difference in days *)
Definition longest_unresolved (now : Z) (l : list Feedback) : list Unresolved :=
  let selected := filter (fun r => unresolved r = true) l in
  map (fun r => {| lu_title := title r; lu_created_at := created_at r;
                   lu_source := source r;
                   days_open := Z.quot (now - created_at r) 86400 |})
      (take 5 (order_by_asc created_at selected)).

(** the statement of [getAIInsights] *)
Definition insights_sample (now : Z) (l : list Feedback) : list Feedback :=
  take 20 (order_by_desc created_at (filter (fun r => now - 7 * 86400 < created_at r) l)).

End Sql.

(** ** The seed data *)

Record Mock : Type := mock {
  m_title : string;
  m_description : string;
  m_source : string;
  m_user_email : string;
  m_created_at : Z;
}.

(** [mockFeedback]; the offsets of [created_at] are in seconds *)
Definition mockFeedback : list Mock := [
    mock "Dashboard loading takes 5+ seconds"
         "The dashboard takes way too long to load. Sometimes it times out completely."
         "Discord" "dev@company.com" (-45 * 86400);
    mock "Dashboard loading takes 5+ seconds"
         "Dashboard is extremely slow to load"
         "Support Ticket" "pm@startup.io" (-40 * 86400);
    mock "Dashboard loading takes 5+ seconds"
         "Performance issue with dashboard"
         "GitHub" "eng@tech.com" (-35 * 86400);
    mock "Dashboard loading takes 5+ seconds"
         "Dashboard loading is slow"
         "Twitter" "user1@email.com" (-30 * 86400);
    mock "Dashboard loading takes 5+ seconds"
         "Dashboard timeout errors"
         "Discord" "dev@company.com" (-25 * 86400);
    mock "Workers AI timeout errors on large files"
         "Workers AI times out when processing files larger than 5MB"
         "GitHub" "eng@tech.com" (-38 * 86400);
    mock "Workers AI timeout errors on large files"
         "Large file processing fails"
         "Support Ticket" "pm@startup.io" (-33 * 86400);
    mock "Workers AI timeout errors on large files"
         "Timeout issue with AI service"
         "Discord" "dev@company.com" (-28 * 86400);
    mock "D1 migrations fail silently"
         "D1 migrations fail without error messages"
         "GitHub" "eng@tech.com" (-42 * 86400);
    mock "D1 migrations fail silently"
         "Migration errors are not reported properly"
         "Support Ticket" "pm@startup.io" (-37 * 86400);
    mock "KV cache invalidation not working"
         "Cache does not invalidate when keys are updated"
         "Discord" "dev@company.com" (-15 * 86400);
    mock "KV cache invalidation not working"
         "Cache invalidation broken"
         "GitHub" "eng@tech.com" (-12 * 86400);
    mock "Cannot deploy to Workers"
         "Deployment fails with cryptic error message"
         "Discord" "dev@company.com" (-5 * 60);
    mock "Wrangler CLI crashes on Windows"
         "CLI crashes when running deploy command on Windows 11"
         "GitHub" "eng@tech.com" (-44 * 86400);
    mock "Documentation unclear on D1 setup"
         "Cannot find clear instructions for D1 database setup"
         "Support Ticket" "pm@startup.io" (-39 * 86400);
    mock "R2 CORS configuration unclear"
         "Cannot figure out CORS setup for R2 buckets"
         "Support Ticket" "pm@startup.io" (-36 * 86400);
    mock "API performance degraded"
         "API is slower than usual. Response times have increased significantly"
         "Discord" "dev@company.com" (-3 * 86400);
    mock "Great new AI feature!"
         "Love the new AI models. They work really well!"
         "Twitter" "fan@email.com" (-1 * 3600);
    mock "Love the new features!"
         "Great updates this month. Keep up the good work!"
         "Twitter" "happy@user.com" (-1 * 86400);
    mock "KV storage quota exceeded"
         "Need more storage for KV namespace"
         "Support Ticket" "dev@company.com" (-12 * 60);
    mock "Database migration failed"
         "D1 migration script not working as expected"
         "Support Ticket" "pm@startup.io" (-2 * 3600);
    mock "Workers AI rate limiting too strict"
         "Hit rate limits with Workers AI too quickly"
         "GitHub" "eng@tech.com" (-31 * 86400);
    mock "Dashboard UI confusing"
         "Hard to find deployment settings in the dashboard"
         "Twitter" "user1@email.com" (-2 * 86400);
    mock "Workers AI is slow"
         "AI inference takes too long to complete"
         "GitHub" "eng@tech.com" (-29 * 86400);
    mock "Excellent documentation update"
         "The latest docs are much clearer. Thank you!"
         "Twitter" "happy@user.com" (-6 * 3600)
  ].

(** ** The worker *)

Module Worker.

Definition json_response (payload : string) : Response :=
  {| status := 200; content_type := "application/json"; body := payload |}.

(** a cached text counts as a hit when it is neither null nor empty *)
Definition hit (cached : option string) : option string :=
  match cached with
  | Some EmptyString => None
  | other => other
  end.

Definition opt_str (o : option string) : json :=
  match o with Some s => JStr s | None => JNull end.

(** The keyword rules of the [catch] branch of [analyzeSentiment]. *)
Definition keyword_sentiment (text : string) : string :=
  let lowerText := Str.toLowerCase text in
  if Str.includes "great" lowerText || Str.includes "love" lowerText
     || Str.includes "awesome" lowerText || Str.includes "excellent" lowerText
  then "positive"
  else if Str.includes "fail" lowerText || Str.includes "error" lowerText
          || Str.includes "broken" lowerText || Str.includes "slow" lowerText
          || Str.includes "issue" lowerText || Str.includes "problem" lowerText
  then "negative"
  else "neutral".

Definition priority_of (sentiment title : string) : string :=
  if String.eqb sentiment "negative"
     && (Str.includes "error" title || Str.includes "fail" title || Str.includes "crash" title)
  then "high"
  else if String.eqb sentiment "positive" then "low"
  else "medium".

Definition category_of (title : string) : string :=
  if Str.includes "Dashboard" title || Str.includes "UI" title then "ux"
  else if Str.includes "Workers AI" title || Str.includes "AI" title then "ai"
  else if Str.includes "D1" title || Str.includes "migration" title
          || Str.includes "Database" title then "database"
  else if Str.includes "KV" title || Str.includes "cache" title then "storage"
  else if Str.includes "API" title || Str.includes "performance" title
          || Str.includes "slow" title then "performance"
  else if Str.includes "Wrangler" title || Str.includes "CLI" title then "tooling"
  else if Str.includes "documentation" title || Str.includes "CORS" title then "docs"
  else "general".

(** the average of [getStats]: [reduce] from 0, a division by the length
    and [toFixed(1)], or '0.0' for no rows *)
Definition avgScore (rt : Runtime) (results : list spec_float) : string :=
  if (0 <? length results)%nat
  then Num.toFixed (numberToString rt) 1
         (Num.div (fold_left Num.add results (Num.of_Z 0))
                  (Num.of_Z (Z.of_nat (length results))))
  else "0.0".

Definition insights_system : string :=
  "You are a product manager analyzing customer feedback. Provide 3 concise insights about trends, patterns, or urgent issues. Each insight should be 1-2 sentences.".

Definition newline : string := String (ascii_of_nat 10) EmptyString.

Definition insights_unavailable : string :=
  "AI analysis temporarily unavailable. Using cached data.".

Definition insights_payload (rt : Runtime) (text : string) (now : Z) : string :=
  Json.stringify (JObj [("insights", JStr text); ("generated_at", JStr (toISOString rt now))]).

Section Handlers.
Variable rt : Runtime.
Variable env : Env.

Definition analyzeSentiment (text : string) : M string :=
  try_catch
    (aiResponse ← Binding.ai_run_classifier env (Str.take 500 text);
     match aiResponse with
     | None => throw "Cannot read properties of undefined (reading 'label')"
     | Some out =>
         let label :=
           match label out with
           | Some (String c l) => String c l
           | _ => "NEGATIVE"
           end in
         let score :=
           match score out with
           | Some x => if Num.truthy x then x else Num.of_Z 0
           | None => Num.of_Z 0
           end in
         if String.eqb label "POSITIVE" && Num.ltb Num.lit_0_6 score then mret "positive"
         else if String.eqb label "NEGATIVE" && Num.ltb Num.lit_0_6 score then mret "negative"
         else mret "neutral"
     end)
    (fun _ => mret (keyword_sentiment text)).

Definition getStats : M Response :=
  cached ← Binding.cache_get env "stats";
  match hit cached with
  | Some payload => mret (json_response payload)
  | None =>
      total ← Binding.db_read env QTotal (fun s => Sql.count_all (rows s));
      unresolved ← Binding.db_read env QUnresolved (fun s => Sql.count_unresolved (rows s));
      avgSentiment ← Binding.db_read env QScores (fun s => Sql.scores (rows s));
      let avg := avgScore rt avgSentiment in
      repeatUsers ← Binding.db_read env QRepeatCount (fun s => Sql.repeat_user_count (rows s));
      let payload :=
        Json.stringify (JObj [("total", JNum total); ("avgSentiment", JStr avg);
                              ("unresolved", JNum unresolved);
                              ("repeatUsers", JNum repeatUsers)]) in
      Binding.cache_put env "stats" payload 300;;
      mret (json_response payload)
  end.

Definition top_issue_json (r : Sql.TopIssue) : json :=
  JObj [("title", JStr (Sql.ti_title r)); ("count", JNum (Sql.ti_count r));
        ("sentiment", opt_str (Sql.ti_sentiment r))].

Definition getTopIssues : M Response :=
  cached ← Binding.cache_get env "top-issues";
  match hit cached with
  | Some payload => mret (json_response payload)
  | None =>
      result ← Binding.db_read env QTopIssues (fun s => Sql.top_issues (rows s));
      let payload := Json.stringify (JArr (map top_issue_json result)) in
      Binding.cache_put env "top-issues" payload 300;;
      mret (json_response payload)
  end.

Definition recent_json (r : Feedback) : json :=
  JObj [("id", JNum (id r)); ("title", JStr (title r));
        ("description", opt_str (description r)); ("source", JStr (source r));
        ("created_at", JStr (datetimeText rt (created_at r)));
        ("sentiment", opt_str (sentiment r))].

Definition getRecentIssues : M Response :=
  result ← Binding.db_read env QRecent (fun s => Sql.recent (rows s));
  mret (json_response (Json.stringify (JArr (map recent_json result)))).

Definition repeat_user_json (r : Sql.RepeatUser) : json :=
  JObj [("user_email", JStr (Sql.ru_user_email r));
        ("complaint_count", JNum (Sql.complaint_count r));
        ("issues", JStr (Sql.issues r))].

Definition getRepeatUsers : M Response :=
  cached ← Binding.cache_get env "repeat-users";
  match hit cached with
  | Some payload => mret (json_response payload)
  | None =>
      result ← Binding.db_read env QRepeatUsers (fun s => Sql.repeat_users (rows s));
      let payload := Json.stringify (JArr (map repeat_user_json result)) in
      Binding.cache_put env "repeat-users" payload 300;;
      mret (json_response payload)
  end.

Definition unresolved_json (r : Sql.Unresolved) : json :=
  JObj [("title", JStr (Sql.lu_title r));
        ("created_at", JStr (datetimeText rt (Sql.lu_created_at r)));
        ("source", JStr (Sql.lu_source r)); ("days_open", JNum (Sql.days_open r))].

Definition getLongestUnresolved : M Response :=
  cached ← Binding.cache_get env "longest-unresolved";
  match hit cached with
  | Some payload => mret (json_response payload)
  | None =>
      result ← Binding.db_read env QLongestUnresolved
                 (fun s => Sql.longest_unresolved (clock s) (rows s));
      let payload := Json.stringify (JArr (map unresolved_json result)) in
      Binding.cache_put env "longest-unresolved" payload 300;;
      mret (json_response payload)
  end.

Definition feedback_line (f : Feedback) : string :=
  title f ++ ": " ++ match description f with
                     | Some (String c d) => String c d
                     | _ => "No description"
                     end.

Definition getAIInsights : M Response :=
  cached ← Binding.cache_get env "ai-insights";
  match hit cached with
  | Some payload => mret (json_response payload)
  | None =>
      recentFeedback ← Binding.db_read env QInsightsSample
                         (fun s => Sql.insights_sample (clock s) (rows s));
      let feedbackText := Str.join newline (map feedback_line recentFeedback) in
      try_catch
        (aiResponse ← Binding.ai_run_chat env insights_system
                        ("Analyze this customer feedback and provide 3 key insights:"
                           ++ newline ++ newline ++ feedbackText);
         match aiResponse with
         | None => throw "Cannot read properties of undefined (reading 'response')"
         | Some out =>
             let text := match response out with
                         | Some (String c t) => String c t
                         | _ => "No insights available at this time."
                         end in
             s ← get_state;
             let payload := insights_payload rt text (clock s) in
             Binding.cache_put env "ai-insights" payload 600;;
             mret (json_response payload)
         end)
        (fun _ =>
           s ← get_state;
           mret (json_response (insights_payload rt insights_unavailable (clock s))))
  end.

(** The keys deleted by [seedDatabase], in its order. *)
Definition seed_keys : list string :=
  ["stats"; "top-issues"; "repeat-users"; "longest-unresolved"; "ai-insights"].

Record Inserted : Type := { in_id : Z; in_title : string; in_sentiment : string }.
Record Failed : Type := { fl_title : string; fl_error : string }.

(** the body of the [for] loop of [seedDatabase], for one entry *)
Definition seed_one (acc : list Inserted * list Failed) (feedback : Mock)
  : M (list Inserted * list Failed) :=
  try_catch
    (sentiment ← analyzeSentiment (m_title feedback ++ " " ++ m_description feedback);
     let priority := priority_of sentiment (m_title feedback) in
     let category := category_of (m_title feedback) in
     i ← Binding.db_insert env
           {| nf_title := m_title feedback; nf_description := m_description feedback;
              nf_source := m_source feedback; nf_user_email := m_user_email feedback;
              nf_sentiment := sentiment; nf_category := category;
              nf_priority := priority; nf_offset := m_created_at feedback |};
     mret ((fst acc ++ [{| in_id := i; in_title := m_title feedback;
                           in_sentiment := sentiment |}])%list, snd acc))
    (fun e => mret (fst acc, (snd acc ++ [{| fl_title := m_title feedback;
                                             fl_error := e |}])%list)).

Fixpoint seed_loop (acc : list Inserted * list Failed) (l : list Mock)
  : M (list Inserted * list Failed) :=
  match l with
  | [] => mret acc
  | feedback :: rest => acc' ← seed_one acc feedback; seed_loop acc' rest
  end.

Definition inserted_json (r : Inserted) : json :=
  JObj [("id", JNum (in_id r)); ("title", JStr (in_title r));
        ("sentiment", JStr (in_sentiment r))].

Definition failed_json (r : Failed) : json :=
  JObj [("title", JStr (fl_title r)); ("error", JStr (fl_error r))].

Definition seed_payload (inserted : list Inserted) (errors : list Failed) : string :=
  Json.stringify
    (JObj [("message", JStr ("Seeded " ++ Str.of_Z (Z.of_nat (length inserted))
                               ++ " feedback entries"));
           ("inserted", JNum (Z.of_nat (length inserted)));
           ("errors", JNum (Z.of_nat (length errors)));
           ("details", JObj [("successful", JArr (map inserted_json inserted));
                             ("failed", JArr (map failed_json errors))])]).

(** [seedDatabase], over the entries [entries] ([mockFeedback] in the
    worker) *)
Definition seedDatabaseWith (entries : list Mock) : M Response :=
  Binding.cache_delete env "stats";;
  Binding.cache_delete env "top-issues";;
  Binding.cache_delete env "repeat-users";;
  Binding.cache_delete env "longest-unresolved";;
  Binding.cache_delete env "ai-insights";;
  out ← seed_loop ([], []) entries;
  mret (json_response (seed_payload (fst out) (snd out))).

Definition seedDatabase : M Response := seedDatabaseWith mockFeedback.

(** The routes of [fetch] that reach the handlers above; the answer to
    OPTIONS, the detail route and the dashboard page are left out. *)
Definition route (pathname : string) : option (M Response) :=
  if String.eqb pathname "/api/stats" then Some getStats
  else if String.eqb pathname "/api/top-issues" then Some getTopIssues
  else if String.eqb pathname "/api/recent" then Some getRecentIssues
  else if String.eqb pathname "/api/repeat-users" then Some getRepeatUsers
  else if String.eqb pathname "/api/longest-unresolved" then Some getLongestUnresolved
  else if String.eqb pathname "/api/ai-insights" then Some getAIInsights
  else if String.eqb pathname "/api/seed" then Some seedDatabase
  else None.



End Handlers.
End Worker.

(** ** Vocabulary of the properties *)

(** The views served from the cache, with their key, handler and the
    statement whose failure or success decides a miss. *)
Inductive View : Type :=
| Stats | TopIssues | RepeatUsers | LongestUnresolved | AIInsights.

Definition view_key (v : View) : string :=
  match v with
  | Stats => "stats"
  | TopIssues => "top-issues"
  | RepeatUsers => "repeat-users"
  | LongestUnresolved => "longest-unresolved"
  | AIInsights => "ai-insights"
  end.

Definition handler (rt : Runtime) (env : Env) (v : View) : M Response :=
  match v with
  | Stats => Worker.getStats rt env
  | TopIssues => Worker.getTopIssues env
  | RepeatUsers => Worker.getRepeatUsers env
  | LongestUnresolved => Worker.getLongestUnresolved rt env
  | AIInsights => Worker.getAIInsights rt env
  end.

(** What a read of the cache under [key] returns in state [s] when the
    read itself succeeds. *)
Definition cached_text (key : string) (s : State) : option string :=
  match kv s !! key with
  | Some entry => if clock s <? kv_expires entry then Some (kv_value entry) else None
  | None => None
  end.

Definition cache_miss (key : string) (s : State) : Prop :=
  Worker.hit (cached_text key s) = None.

(** No statement of the worker fails. *)
Definition db_reads_ok (env : Env) : Prop := forall q, db_read_error env q = None.

(** The state with [events] appended to the trace. *)
Definition logged (s : State) (events : list Event) : State :=
  {| rows := rows s; last_row_id := last_row_id s; kv := kv s;
     clock := clock s; trace := trace s ++ events |}.

(** Time passing between two requests. *)
Definition tick (dt : Z) (s : State) : State :=
  {| rows := rows s; last_row_id := last_row_id s; kv := kv s;
     clock := clock s + dt; trace := trace s |}.

(** The payloads the four aggregate handlers compute on a miss. *)
Definition stats_payload (rt : Runtime) (s : State) : string :=
  Json.stringify
    (JObj [("total", JNum (Sql.count_all (rows s)));
           ("avgSentiment", JStr (Worker.avgScore rt (Sql.scores (rows s))));
           ("unresolved", JNum (Sql.count_unresolved (rows s)));
           ("repeatUsers", JNum (Sql.repeat_user_count (rows s)))]).

Definition fresh_payload (rt : Runtime) (v : View) (s : State) : string :=
  match v with
  | Stats => stats_payload rt s
  | TopIssues => Json.stringify (JArr (map Worker.top_issue_json (Sql.top_issues (rows s))))
  | RepeatUsers => Json.stringify (JArr (map Worker.repeat_user_json (Sql.repeat_users (rows s))))
  | LongestUnresolved =>
      Json.stringify (JArr (map (Worker.unresolved_json rt)
                                (Sql.longest_unresolved (clock s) (rows s))))
  | AIInsights => EmptyString
  end.

(** The statements a handler runs on a miss, in order. *)
Definition view_reads (v : View) : list Event :=
  match v with
  | Stats => [(DbRead QTotal, true); (DbRead QUnresolved, true);
              (DbRead QScores, true); (DbRead QRepeatCount, true)]
  | TopIssues => [(DbRead QTopIssues, true)]
  | RepeatUsers => [(DbRead QRepeatUsers, true)]
  | LongestUnresolved => [(DbRead QLongestUnresolved, true)]
  | AIInsights => [(DbRead QInsightsSample, true)]
  end.

Definition is_aggregate (v : View) : Prop := v <> AIInsights.

(** The user message [getAIInsights] sends to the summarizer in state [s]. *)
Definition insights_prompt (s : State) : string :=
  "Analyze this customer feedback and provide 3 key insights:"
    ++ Worker.newline ++ Worker.newline
    ++ Str.join Worker.newline
         (map Worker.feedback_line (Sql.insights_sample (clock s) (rows s))).

(** The text taken from an answer of the summarizer. *)
Definition insights_text (out : ChatOutput) : string :=
  match response out with
  | Some (String c t) => String c t
  | _ => "No insights available at this time."
  end.

(** The response that carries the fixed message of the [catch] branch. *)
Definition fallback_response (rt : Runtime) (s : State) : Response :=
  Worker.json_response (Worker.insights_payload rt Worker.insights_unavailable (clock s)).

Definition chat_model : string := "@cf/meta/llama-3-8b-instruct".

(** The state after a successful [put] of [value] under [key]. *)
Definition stored (key value : string) (ttl : Z) (s : State) : State :=
  {| rows := rows s; last_row_id := last_row_id s;
     kv := <[key := {| kv_value := value; kv_expires := clock s + ttl |}]> (kv s);
     clock := clock s; trace := trace s ++ [(KvPut key value ttl, true)] |}.


(** The state in which the [try] block of [getAIInsights] starts. *)
Definition asked (s : State) : State :=
  logged s [(KvGet "ai-insights", true); (DbRead QInsightsSample, true)].

(** The [try] block of [getAIInsights], for the prompt of state [s]. *)
Definition insights_attempt (rt : Runtime) (env : Env) (s : State) : M Response :=
  aiResponse ← Binding.ai_run_chat env Worker.insights_system (insights_prompt s);
  match aiResponse with
  | None => throw "Cannot read properties of undefined (reading 'response')"
  | Some out =>
      s' ← get_state;
      let payload := Worker.insights_payload rt (insights_text out) (clock s') in
      Binding.cache_put env "ai-insights" payload 600;;
      mret (Worker.json_response payload)
  end.


(** The row that the INSERT of [f] adds in state [s]. *)
Definition new_row (f : NewFeedback) (s : State) : Feedback :=
  {| id := last_row_id s + 1; title := nf_title f;
     description := Some (nf_description f); source := nf_source f;
     user_email := Some (nf_user_email f); sentiment := Some (nf_sentiment f);
     category := Some (nf_category f); created_at := clock s + nf_offset f;
     resolved_at := None; priority := nf_priority f |}.

(** The state after a successful INSERT of [f]. *)
Definition inserted (f : NewFeedback) (s : State) : State :=
  {| rows := rows s ++ [new_row f s]; last_row_id := last_row_id s + 1;
     kv := kv s; clock := clock s; trace := trace s ++ [(DbInsert f, true)] |}.

Definition classifier_model : string := "@cf/huggingface/distilbert-sst-2-int8".




(** The state after a successful delete of [key]. *)
Definition deleted (key : string) (s : State) : State :=
  {| rows := rows s; last_row_id := last_row_id s; kv := delete key (kv s);
     clock := clock s; trace := trace s ++ [(KvDelete key, true)] |}.

(** The keyword sets of the fallback classification. *)
Definition positive_keywords : list string := ["great"; "love"; "awesome"; "excellent"].
Definition negative_keywords : list string :=
  ["fail"; "error"; "broken"; "slow"; "issue"; "problem"].

(** The fallback in the words of its description: lowercase the text;
    positive if it contains any positive keyword, else negative if it
    contains any negative keyword, else neutral. *)
Definition fallback_as_specified (text : string) : string :=
  let lowered := Str.toLowerCase text in
  if existsb (fun k => Str.includes k lowered) positive_keywords then "positive"
  else if existsb (fun k => Str.includes k lowered) negative_keywords then "negative"
  else "neutral".

(** The text is made of ASCII characters. *)
Definition ascii_text (text : string) : Prop :=
  Forall (fun c => (nat_of_ascii c < 128)%nat) (list_ascii_of_string text).

Definition small_letter (k : ascii) : Prop := (97 <= nat_of_ascii k <= 122)%nat.

(** A word of the letters a to z, as the keywords are. *)
Definition small_word (kw : string) : Prop :=
  Forall small_letter (list_ascii_of_string kw).

(** The capital of a small letter. *)
Definition capital (k : ascii) : ascii := ascii_of_nat (nat_of_ascii k - 32).

(** [c] is the letter [k], small or capital. *)
Definition same_letter (c k : ascii) : Prop := c = k \/ c = capital k.

(** [w] spells the word [kw], each letter small or capital. *)
Fixpoint spells (kw w : string) : Prop :=
  match kw, w with
  | EmptyString, EmptyString => True
  | String k kw', String c w' => same_letter c k /\ spells kw' w'
  | _, _ => False
  end.

(** The word [kw] occurs in [text], whatever the case of its letters
    there. *)
Definition occurs_in (kw text : string) : Prop :=
  exists before w after, text = before ++ w ++ after /\ spells kw w.





(** The unresolved records of the user [u]. *)
Definition complaints (u : string) (l : list Feedback) : list Feedback :=
  filter (fun r => Sql.unresolved r = true ∧ user_email r = Some u) l.

(** The row of [getRepeatUsers] for the user [u]. *)
Definition repeat_user_row (u : string) (l : list Feedback) : Sql.RepeatUser :=
  {| Sql.ru_user_email := u;
     Sql.complaint_count := Z.of_nat (length (complaints u l));
     Sql.issues := Str.join " | " (map title (complaints u l)) |}.

(** The row for [u] as the description of the view has it, with each
    distinct title once. *)
Definition repeat_user_row_distinct (u : string) (l : list Feedback) : Sql.RepeatUser :=
  {| Sql.ru_user_email := u;
     Sql.complaint_count := Z.of_nat (length (complaints u l));
     Sql.issues := Str.join " | " (remove_dups (map title (complaints u l))) |}.

(** [l] is in descending order of [key]. *)
Definition descending {A} (key : A -> Z) (l : list A) : Prop :=
  forall i j a b, (i < j)%nat -> l !! i = Some a -> l !! j = Some b -> key b <= key a.

(** The rows of [getRepeatUsers] before ORDER BY and LIMIT, for the
    candidate emails [keys]. *)
Definition repeat_user_candidates (keys : list (option string)) (sel : list Feedback)
  : list Sql.RepeatUser :=
  omap (fun g =>
          match fst g with
          | Some u => Some {| Sql.ru_user_email := u;
                              Sql.complaint_count := Z.of_nat (length (snd g));
                              Sql.issues := Str.join " | " (map title (snd g)) |}
          | None => None
          end)
       (filter (fun g => (1 < length (snd g))%nat)
               (map (fun k => (k, filter (fun r => user_email r = k) sel)) keys)).

(** The records [getRepeatUsers] selects. *)
Definition repeat_user_selection (l : list Feedback) : list Feedback :=
  filter (fun r => Sql.unresolved r = true ∧ is_Some (user_email r)) l.


(** The number of records of [l] whose sentiment is [label]. *)
Definition with_sentiment (label : string) (l : list Feedback) : Z :=
  Z.of_nat (length (filter (fun r => sentiment r = Some label) l)).

(** The total of the scores as the specification words it: 8 for each
    positive record, 5 for each neutral one and 2 for each of the others,
    a record without a sentiment included. *)
Definition specified_total (l : list Feedback) : Z :=
  8 * with_sentiment "positive" l + 5 * with_sentiment "neutral" l
  + 2 * (Z.of_nat (length l) - with_sentiment "positive" l - with_sentiment "neutral" l).






(** ** Fixtures *)

Module Fixture.

Definition rt : Runtime :=
  {| numberToString := fun _ => "Infinity"; toISOString := Str.of_Z; datetimeText := Str.of_Z |}.

(** every binding works; the classifier is sure of a negative, the
    summarizer answers *)
Definition healthy : Env :=
  {| kv_get_error := fun _ => None;
     kv_put_error := fun _ => None;
     kv_delete_error := fun _ => None;
     db_read_error := fun _ => None;
     db_insert_error := fun _ => None;
     ai_classify := fun _ =>
       Ok (Some {| label := Some "NEGATIVE"; score := Some (Num.of_Z 1) |});
     ai_chat := fun _ _ => Ok (Some {| response := Some "Three insights." |}) |}.



(** as [healthy], with both models failing *)
Definition ai_down : Env :=
  {| kv_get_error := fun _ => None;
     kv_put_error := fun _ => None;
     kv_delete_error := fun _ => None;
     db_read_error := fun _ => None;
     db_insert_error := fun _ => None;
     ai_classify := fun _ => Throw "AI unavailable";
     ai_chat := fun _ _ => Throw "AI unavailable" |}.

Definition empty : State :=
  {| rows := []; last_row_id := 0; kv := ∅; clock := 1000000000; trace := [] |}.

(** one positive and one negative record *)
Definition two_records : State :=
  {| rows := [ {| id := 1; title := "Great new AI feature!"; description := None;
                  source := "Twitter"; user_email := Some "fan@email.com";
                  sentiment := Some "positive"; category := Some "ai";
                  created_at := 999996400; resolved_at := None; priority := "low" |};
               {| id := 2; title := "API performance degraded"; description := None;
                  source := "Discord"; user_email := Some "dev@company.com";
                  sentiment := Some "negative"; category := Some "performance";
                  created_at := 999740800; resolved_at := Some 999900000;
                  priority := "high" |} ];
     last_row_id := 2; kv := ∅; clock := 1000000000; trace := [] |}.

Definition feedback : NewFeedback :=
  {| nf_title := "Cannot deploy to Workers";
     nf_description := "Deployment fails with cryptic error message";
     nf_source := "Discord"; nf_user_email := "dev@company.com";
     nf_sentiment := "negative"; nf_category := "general";
     nf_priority := "medium"; nf_offset := -300 |}.

Definition row (i : Z) (t : string) (u : option string) (s : option string)
           (c : Z) (r : option Z) : Feedback :=
  {| id := i; title := t; description := None; source := "GitHub";
     user_email := u; sentiment := s; category := None;
     created_at := c; resolved_at := r; priority := "medium" |}.

(** two open complaints of one user under the same title *)
Definition same_title_twice : list Feedback :=
  [ row 1 "Dashboard loading takes 5+ seconds" (Some "dev@company.com")
        (Some "negative") 996112000 None;
    row 5 "Dashboard loading takes 5+ seconds" (Some "dev@company.com")
        (Some "negative") 997840000 None ].

End Fixture.

(** ** Further vocabulary *)

(** The time to live a handler gives to the entry of its view. *)
Definition view_ttl (v : View) : Z :=
  match v with
  | AIInsights => 600
  | _ => 300
  end.

(** A handler's run in state [s] was a miss that ended with the payload
    [payload] written under the key of its view. *)
Definition populated (rt : Runtime) (env : Env) (v : View) (payload : string) (s : State)
  : Prop :=
  exists events,
    handler rt env v s
    = (Ok (Worker.json_response payload),
       stored (view_key v) payload (view_ttl v) (logged s events)).

(** The calls a request for the view [v] may make: reads of the cache and
    writes with the view's time to live under the view's own key,
    statements that read the table and, for the insights, runs of the
    summarizer; no delete, no INSERT. *)
Definition view_event (v : View) (ev : Event) : Prop :=
  match fst ev with
  | KvGet key => key = view_key v
  | KvPut key _ ttl => key = view_key v /\ ttl = view_ttl v
  | KvDelete _ => False
  | DbRead _ => True
  | DbInsert _ => False
  | AiRun model => v = AIInsights /\ model = chat_model
  end.

(** From [s] to [s'] the table and the clock are the same, the cache is
    the same outside the keys [K], and the calls made satisfy [P]. *)
Definition footprint (P : Event -> Prop) (K : string -> Prop) (s s' : State) : Prop :=
  rows s' = rows s /\ last_row_id s' = last_row_id s /\ clock s' = clock s /\
  (forall key, ~ K key -> kv s' !! key = kv s !! key) /\
  exists events, trace s' = (trace s ++ events)%list /\ Forall P events.

Definition confined {A} (P : Event -> Prop) (K : string -> Prop) (m : M A) : Prop :=
  forall s, footprint P K s (snd (m s)).

(** The three sentiments. *)
Definition sentiments : list string := ["positive"; "negative"; "neutral"].

(** The answer of the classifier carries a score above 0.6. *)
Definition confident (out : SentimentOutput) : Prop :=
  exists x, score out = Some x /\ Num.ltb Num.lit_0_6 x = true.

(** The label [analyzeSentiment] reads from an answer: NEGATIVE when the
    field is missing or empty. *)
Definition label_read (out : SentimentOutput) : string :=
  match label out with
  | Some (String c l) => String c l
  | _ => "NEGATIVE"
  end.

(** The values [seedDatabase] binds for the entry [m] classified as [sent]. *)
Definition seed_values (m : Mock) (sent : string) : NewFeedback :=
  {| nf_title := m_title m; nf_description := m_description m;
     nf_source := m_source m; nf_user_email := m_user_email m;
     nf_sentiment := sent; nf_category := Worker.category_of (m_title m);
     nf_priority := Worker.priority_of sent (m_title m);
     nf_offset := m_created_at m |}.

(** The row written at time [now] under the id [i] for the entry [m]
    classified as [sent]. *)
Definition seed_row (i now : Z) (m : Mock) (sent : string) : Feedback :=
  {| id := i; title := m_title m; description := Some (m_description m);
     source := m_source m; user_email := Some (m_user_email m);
     sentiment := Some sent; category := Some (Worker.category_of (m_title m));
     created_at := now + m_created_at m; resolved_at := None;
     priority := Worker.priority_of sent (m_title m) |}.

(** The row [r] and the item [i] of the response report the same write of
    one of the entries. *)
Definition written_by (now : Z) (entries : list Mock) (r : Feedback) (i : Worker.Inserted)
  : Prop :=
  exists m sent,
    m ∈ entries /\ sent ∈ sentiments /\ r = seed_row (Worker.in_id i) now m sent /\
    Worker.in_title i = m_title m /\ Worker.in_sentiment i = sent.

(** The item [f] of the response reports an INSERT of one of the entries
    that the database refused. *)
Definition refused_by (env : Env) (entries : list Mock) (f : Worker.Failed) : Prop :=
  exists m sent,
    m ∈ entries /\ sent ∈ sentiments /\ Worker.fl_title f = m_title m /\
    db_insert_error env (seed_values m sent) = Some (Worker.fl_error f).

(** What the loop of [seedDatabase] over [entries] has done between [s]
    and [s']: [ins] and [fails] are the two lists of the response. *)
Definition seed_outcome (env : Env) (entries : list Mock) (s s' : State)
           (ins : list Worker.Inserted) (fails : list Worker.Failed) : Prop :=
  exists new,
    rows s' = (rows s ++ new)%list /\
    last_row_id s' = last_row_id s + Z.of_nat (length new) /\
    clock s' = clock s /\ kv s' = kv s /\
    Forall2 (written_by (clock s) entries) new ins /\
    map id new = seqZ (last_row_id s + 1) (Z.of_nat (length new)) /\
    Forall (refused_by env entries) fails /\
    (length ins + length fails = length entries)%nat.

(** The state after the five deletes of [seedDatabase]. *)
Definition purged (s : State) : State :=
  deleted "ai-insights"
    (deleted "longest-unresolved"
       (deleted "repeat-users" (deleted "top-issues" (deleted "stats" s)))).

Definition deletes_ok (env : Env) : Prop :=
  forall key, key ∈ Worker.seed_keys -> kv_delete_error env key = None.

(** The ids of the table are distinct and none exceeds the counter. *)
Definition table_ok (s : State) : Prop :=
  NoDup (map id (rows s)) /\ forall r, r ∈ rows s -> id r <= last_row_id s.

(** [out] holds [n] elements of [l] with the largest keys, in descending
    order (all of [l] when it has no more than [n] elements): what
    ORDER BY key DESC LIMIT n selects. *)
Definition top_by {A} (key : A -> Z) (n : nat) (l out : list A) : Prop :=
  length out = Nat.min n (length l) /\
  out ⊆+ l /\
  descending key out /\
  forall x, x ∈ l -> x ∈ out \/ (length out = n /\ forall y, y ∈ out -> key x <= key y).

(** The row of [getLongestUnresolved] for the record [r] at time [now]. *)
Definition unresolved_row (now : Z) (r : Feedback) : Sql.Unresolved :=
  {| Sql.lu_title := title r; Sql.lu_created_at := created_at r;
     Sql.lu_source := source r; Sql.days_open := Z.quot (now - created_at r) 86400 |}.

(** The unresolved records of [l]. *)
Definition open_records (l : list Feedback) : list Feedback :=
  filter (fun r => Sql.unresolved r = true) l.

(** The records created in the seven days before [now]. *)
Definition last_week (now : Z) (l : list Feedback) : list Feedback :=
  filter (fun r => now - 7 * 86400 < created_at r) l.

(** The unresolved records titled [t]. *)
Definition issue_records (t : string) (l : list Feedback) : list Feedback :=
  filter (fun r => Sql.unresolved r = true ∧ title r = t) l.

(** The rows of [getTopIssues] before ORDER BY and LIMIT, for the
    candidate titles [keys]. *)
Definition top_issue_candidates (keys : list (option string)) (sel : list Feedback)
  : list Sql.TopIssue :=
  omap (fun g =>
          match snd g with
          | r :: _ => Some {| Sql.ti_title := title r;
                              Sql.ti_count := Z.of_nat (length (snd g));
                              Sql.ti_sentiment := sentiment r |}
          | [] => None
          end)
       (map (fun k => (k, filter (fun r => Some (title r) = k) sel)) keys).

(** The records, resolved or not, of user [u]. *)
Definition records_of (u : string) (l : list Feedback) : list Feedback :=
  filter (fun r => user_email r = Some u) l.

(** ** The detail of one record *)

(** [getFeedbackDetail] only reads the table: its run is the response, or
    the exception, together with the statements it issued. *)
Module Detail.

(** The two statements of the handler, with the value bound to each. *)
Inductive Statement : Type :=
| ById (id : Z)
| History (user_email : string).

Definition Issued : Type := Statement * bool.

Definition D (A : Type) : Type := res A * list Issued.

Definition ret {A} (a : A) : D A := (Ok a, []).

Definition bind {A B} (m : D A) (k : A -> D B) : D B :=
  match m with
  | (Ok a, t) => let (r, t') := k a in (r, (t ++ t')%list)
  | (Throw e, t) => (Throw e, t)
  end.

(** [env.DB.prepare(q).bind(v).first()] or [.all()]: [view] is what the
    statement selects; [failure] is the behaviour of D1 in this request. *)
Definition read {A} (failure : Statement -> option string) (q : Statement) (view : A)
  : D A :=
  match failure q with
  | Some e => (Throw e, [(q, false)])
  | None => (Ok view, [(q, true)])
  end.

(** [SELECT ... FROM feedback WHERE id = ?] with [.first()] *)
Definition by_id (i : Z) (l : list Feedback) : option Feedback :=
  head (filter (fun r => id r = i) l).

(** [SELECT id, title, created_at, sentiment, resolved_at FROM feedback
     WHERE user_email = ? ORDER BY created_at DESC LIMIT 10] *)
Definition user_history (u : string) (l : list Feedback) : list Feedback :=
  take 10 (Sql.order_by_desc created_at (filter (fun r => user_email r = Some u) l)).

Definition opt_time (rt : Runtime) (o : option Z) : json :=
  match o with Some t => JStr (datetimeText rt t) | None => JNull end.

Definition history_json (rt : Runtime) (r : Feedback) : json :=
  JObj [("id", JNum (id r)); ("title", JStr (title r));
        ("created_at", JStr (datetimeText rt (created_at r)));
        ("sentiment", Worker.opt_str (sentiment r));
        ("resolved_at", opt_time rt (resolved_at r))].

(** [{ ...result, userHistory: userHistory.results }] *)
Definition detail_json (rt : Runtime) (r : Feedback) (history : list Feedback) : json :=
  JObj [("id", JNum (id r)); ("title", JStr (title r));
        ("description", Worker.opt_str (description r));
        ("source", JStr (source r));
        ("user_email", Worker.opt_str (user_email r));
        ("sentiment", Worker.opt_str (sentiment r));
        ("category", Worker.opt_str (category r));
        ("priority", JStr (priority r));
        ("created_at", JStr (datetimeText rt (created_at r)));
        ("resolved_at", opt_time rt (resolved_at r));
        ("userHistory", JArr (map (history_json rt) history))].

Definition not_found : Response :=
  {| status := 404; content_type := "application/json";
     body := Json.stringify (JObj [("error", JStr "Feedback not found")]) |}.

(** [result.user_email ? ... : ...]: null and the empty string are falsy *)
Definition truthy_email (o : option string) : option string :=
  match o with
  | Some EmptyString => None
  | Some u => Some u
  | None => None
  end.

Definition getFeedbackDetail (rt : Runtime) (failure : Statement -> option string)
           (i : Z) (table : list Feedback) : D Response :=
  bind (read failure (ById i) (by_id i table)) (fun result =>
  match result with
  | None => ret not_found
  | Some result =>
      bind (match truthy_email (user_email result) with
            | Some u => read failure (History u) (user_history u table)
            | None => ret []
            end) (fun userHistory =>
      ret (Worker.json_response
             (Json.stringify (detail_json rt result userHistory))))
  end).

End Detail.

(** ** The report of a seeding *)

(** The text [seedDatabase] hands to [analyzeSentiment] for an entry. *)
Definition entry_text (m : Mock) : string := m_title m ++ " " ++ m_description m.

(** [sent] gives each entry the sentiment [analyzeSentiment] returns for
    its text. *)
Definition sentiment_of (env : Env) (sent : Mock -> string) : Prop :=
  forall m s, fst (Worker.analyzeSentiment env (entry_text m) s) = Ok (sent m).

(** The entries whose INSERT the database accepts, in the order of the
    batch. *)
Definition accepted (env : Env) (sent : Mock -> string) (entries : list Mock) : list Mock :=
  filter (fun m => db_insert_error env (seed_values m (sent m)) = None) entries.

(** One failure item for each entry whose INSERT the database refuses, in
    the order of the batch, with the message of the refusal. *)
Definition refusals (env : Env) (sent : Mock -> string) (entries : list Mock)
  : list Worker.Failed :=
  omap (fun m =>
          match db_insert_error env (seed_values m (sent m)) with
          | Some e => Some {| Worker.fl_title := m_title m; Worker.fl_error := e |}
          | None => None
          end) entries.

(** The rows of the entries [ms], written at time [now] under the ids
    [first], [first + 1], ... *)
Definition seeded_rows (first now : Z) (sent : Mock -> string) (ms : list Mock)
  : list Feedback :=
  zip_with (fun i m => seed_row i now m (sent m)) (seqZ first (Z.of_nat (length ms))) ms.

(** The items of the response for the entries [ms], under the same ids. *)
Definition seeded_items (first : Z) (sent : Mock -> string) (ms : list Mock)
  : list Worker.Inserted :=
  zip_with (fun i m => {| Worker.in_id := i; Worker.in_title := m_title m;
                          Worker.in_sentiment := sent m |})
           (seqZ first (Z.of_nat (length ms))) ms.

(** ** Requests served during a seeding *)

(** The worker serves other requests while a handler waits for a binding.
    [meanwhile reqs] serves the requests [reqs] one after the other; their
    answers and exceptions are their own, what they do to the table and to
    the cache stays. *)
Fixpoint meanwhile (reqs : list (M Response)) : M unit :=
  match reqs with
  | [] => mret tt
  | r :: rest => try_catch (r;; mret tt) (fun _ => mret tt);; meanwhile rest
  end.

(** The loop of [seedDatabase] with the requests [others k] served once
    [k] steps of the handler are done, the last ones after the last
    iteration. *)
Fixpoint seed_loop_among (env : Env) (others : nat -> list (M Response)) (k : nat)
         (acc : list Worker.Inserted * list Worker.Failed) (l : list Mock)
  : M (list Worker.Inserted * list Worker.Failed) :=
  match l with
  | [] => meanwhile (others k);; mret acc
  | feedback :: rest =>
      meanwhile (others k);;
      acc' ← Worker.seed_one env acc feedback;
      seed_loop_among env others (S k) acc' rest
  end.

(** [seedDatabase] over [entries] with other requests served between its
    steps: the five deletes are the steps 0 to 4, the iterations of the
    loop follow.  A request served between the classification and the
    INSERT of one iteration finds the table and the cache as one served
    before that iteration does. *)
Definition seed_among (env : Env) (others : nat -> list (M Response))
           (entries : list Mock) : M Response :=
  Binding.cache_delete env "stats";;
  meanwhile (others 1%nat);;
  Binding.cache_delete env "top-issues";;
  meanwhile (others 2%nat);;
  Binding.cache_delete env "repeat-users";;
  meanwhile (others 3%nat);;
  Binding.cache_delete env "longest-unresolved";;
  meanwhile (others 4%nat);;
  Binding.cache_delete env "ai-insights";;
  out ← seed_loop_among env others 5 ([], []) entries;
  mret (Worker.json_response (Worker.seed_payload (fst out) (snd out))).

(** The request [r] puts nothing in the cache under a key that is free. *)
Definition adds_no_entry (r : M Response) : Prop :=
  forall s key, kv s !! key = None -> kv (snd (r s)) !! key = None.

(** The request [req] alone, served once [n] steps are done. *)
Definition only_at (n : nat) (req : M Response) (k : nat) : list (M Response) :=
  if (k =? n)%nat then [req] else [].

(** No entry of the cache is kept under one of [keys]. *)
Definition absent (keys : list string) (s : State) : Prop :=
  forall key, key ∈ keys -> kv s !! key = None.

(** * Properties *)

(** ** Running a handler, one call at a time *)

Lemma bind_ok {A B} (m : M A) (f : A -> M B) s a s' :
  m s = (Ok a, s') -> (m ≫= f) s = f a s'.
Proof. intros H. unfold mbind, M_bind. rewrite H. reflexivity. Qed.

Lemma bind_throw {A B} (m : M A) (f : A -> M B) s e s' :
  m s = (Throw e, s') -> (m ≫= f) s = (Throw e, s').
Proof. intros H. unfold mbind, M_bind. rewrite H. reflexivity. Qed.

Lemma try_catch_ok {A} (m : M A) h s a s' :
  m s = (Ok a, s') -> try_catch m h s = (Ok a, s').
Proof. intros H. unfold try_catch. rewrite H. reflexivity. Qed.

Lemma try_catch_throw {A} (m : M A) h s e s' :
  m s = (Throw e, s') -> try_catch m h s = h e s'.
Proof. intros H. unfold try_catch. rewrite H. reflexivity. Qed.

Lemma logged_logged s e1 e2 : logged (logged s e1) e2 = logged s (e1 ++ e2).
Proof. unfold logged. cbn. rewrite app_assoc. reflexivity. Qed.

Section Calls.
Variable env : Env.

Lemma cache_get_ok key s :
    kv_get_error env key = None ->
    Binding.cache_get env key s = (Ok (cached_text key s), logged s [(KvGet key, true)]).
  Proof. intros H. unfold Binding.cache_get. rewrite H. reflexivity. Qed.

Lemma cache_get_throw key e s :
    kv_get_error env key = Some e ->
    Binding.cache_get env key s = (Throw e, logged s [(KvGet key, false)]).
  Proof. intros H. unfold Binding.cache_get. rewrite H. reflexivity. Qed.

Lemma cache_put_throw key value ttl e s :
    kv_put_error env key = Some e ->
    Binding.cache_put env key value ttl s = (Throw e, logged s [(KvPut key value ttl, false)]).
  Proof. intros H. unfold Binding.cache_put. rewrite H. reflexivity. Qed.

Lemma db_read_ok {A} q (view : State -> A) s :
    db_read_error env q = None ->
    Binding.db_read env q view s = (Ok (view s), logged s [(DbRead q, true)]).
  Proof. intros H. unfold Binding.db_read. rewrite H. reflexivity. Qed.

Lemma db_read_throw {A} q (view : State -> A) e s :
    db_read_error env q = Some e ->
    Binding.db_read env q view s = (Throw e, logged s [(DbRead q, false)]).
  Proof. intros H. unfold Binding.db_read. rewrite H. reflexivity. Qed.

Lemma chat_throw system user e s :
    ai_chat env system user = Throw e ->
    Binding.ai_run_chat env system user s
    = (Throw e, logged s [(AiRun "@cf/meta/llama-3-8b-instruct", false)]).
  Proof. intros H. unfold Binding.ai_run_chat. rewrite H. reflexivity. Qed.

Lemma chat_ok system user r s :
    ai_chat env system user = Ok r ->
    Binding.ai_run_chat env system user s
    = (Ok r, logged s [(AiRun "@cf/meta/llama-3-8b-instruct", true)]).
  Proof. intros H. unfold Binding.ai_run_chat. rewrite H. reflexivity. Qed.

Lemma classifier_throw text e s :
    ai_classify env text = Throw e ->
    Binding.ai_run_classifier env text s
    = (Throw e, logged s [(AiRun "@cf/huggingface/distilbert-sst-2-int8", false)]).
  Proof. intros H. unfold Binding.ai_run_classifier. rewrite H. reflexivity. Qed.

End Calls.

(** ** A failing read of the cache *)

Section CacheRead.
Variables (rt : Runtime) (env : Env).


End CacheRead.

(** the five views are the ones [fetch] routes to under [/api/] *)
Lemma route_of_view rt env v :
  Worker.route rt env ("/api/" ++ view_key v) = Some (handler rt env v).
Proof. destruct v; reflexivity. Qed.

(** ** A miss on an aggregate view *)

Section Miss.
Variables (rt : Runtime) (env : Env).

  (** After the read of the cache has missed and the statements have run,
      an aggregate handler is left with the write of its payload. *)
Lemma aggregate_miss v s :
    is_aggregate v ->
    kv_get_error env (view_key v) = None ->
    cache_miss (view_key v) s ->
    db_reads_ok env ->
    handler rt env v s
    = (Binding.cache_put env (view_key v) (fresh_payload rt v s) 300;;
       mret (Worker.json_response (fresh_payload rt v s)))
        (logged s ((KvGet (view_key v), true) :: view_reads v)).
  Proof.
    intros Hv Hget Hmiss Hdb. unfold cache_miss in Hmiss.
    destruct v; try (exfalso; apply Hv; reflexivity);
      cbn [handler view_key view_reads fresh_payload] in *;
      unfold Worker.getStats, Worker.getTopIssues, Worker.getRepeatUsers,
             Worker.getLongestUnresolved;
      rewrite (bind_ok _ _ _ _ _ (cache_get_ok env _ s Hget)), Hmiss;
      repeat (erewrite bind_ok by (apply db_read_ok, Hdb));
      rewrite ?logged_logged; reflexivity.
  Qed.

End Miss.

(** ** A miss on the insights *)

Section Insights.
Variables (rt : Runtime) (env : Env).

Lemma cache_put_ok key value ttl s :
    kv_put_error env key = None ->
    Binding.cache_put env key value ttl s = (Ok tt, stored key value ttl s).
  Proof. intros H. unfold Binding.cache_put. rewrite H. reflexivity. Qed.

Hypothesis get_ok : kv_get_error env "ai-insights" = None.
Hypothesis read_ok : db_read_error env QInsightsSample = None.

Lemma insights_miss s :
    cache_miss "ai-insights" s ->
    Worker.getAIInsights rt env s
    = try_catch (insights_attempt rt env s)
        (fun _ => s' ← get_state; mret (fallback_response rt s')) (asked s).
  Proof.
    intros Hmiss. unfold cache_miss in Hmiss. unfold Worker.getAIInsights.
    rewrite (bind_ok _ _ _ _ _ (cache_get_ok env _ s get_ok)), Hmiss.
    erewrite bind_ok by (apply db_read_ok, read_ok).
    rewrite logged_logged. reflexivity.
  Qed.

Lemma insights_chat_throws s e :
    cache_miss "ai-insights" s ->
    ai_chat env Worker.insights_system (insights_prompt s) = Throw e ->
    Worker.getAIInsights rt env s
    = (Ok (fallback_response rt s),
       logged s [(KvGet "ai-insights", true); (DbRead QInsightsSample, true);
                 (AiRun chat_model, false)]).
  Proof.
    intros Hmiss Hchat. rewrite (insights_miss s Hmiss).
    erewrite try_catch_throw by (apply bind_throw, chat_throw, Hchat).
    unfold asked. rewrite logged_logged. reflexivity.
  Qed.

Lemma insights_chat_null s :
    cache_miss "ai-insights" s ->
    ai_chat env Worker.insights_system (insights_prompt s) = Ok None ->
    Worker.getAIInsights rt env s
    = (Ok (fallback_response rt s),
       logged s [(KvGet "ai-insights", true); (DbRead QInsightsSample, true);
                 (AiRun chat_model, true)]).
  Proof.
    intros Hmiss Hchat. rewrite (insights_miss s Hmiss).
    erewrite try_catch_throw.
    2:{ unfold insights_attempt. erewrite bind_ok by (apply chat_ok, Hchat). reflexivity. }
    unfold asked. rewrite logged_logged. reflexivity.
  Qed.

Lemma insights_put_throws s out e :
    cache_miss "ai-insights" s ->
    ai_chat env Worker.insights_system (insights_prompt s) = Ok (Some out) ->
    kv_put_error env "ai-insights" = Some e ->
    Worker.getAIInsights rt env s
    = (Ok (fallback_response rt s),
       logged s [(KvGet "ai-insights", true); (DbRead QInsightsSample, true);
                 (AiRun chat_model, true);
                 (KvPut "ai-insights"
                    (Worker.insights_payload rt (insights_text out) (clock s)) 600, false)]).
  Proof.
    intros Hmiss Hchat Hput. rewrite (insights_miss s Hmiss).
    erewrite try_catch_throw.
    2:{ unfold insights_attempt. erewrite bind_ok by (apply chat_ok, Hchat).
        unfold get_state at 1. erewrite bind_ok by reflexivity.
        erewrite bind_throw by (apply cache_put_throw, Hput). reflexivity. }
    unfold asked. rewrite !logged_logged. reflexivity.
  Qed.

Lemma insights_stored s out :
    cache_miss "ai-insights" s ->
    ai_chat env Worker.insights_system (insights_prompt s) = Ok (Some out) ->
    kv_put_error env "ai-insights" = None ->
    Worker.getAIInsights rt env s
    = (Ok (Worker.json_response (Worker.insights_payload rt (insights_text out) (clock s))),
       stored "ai-insights" (Worker.insights_payload rt (insights_text out) (clock s)) 600
         (logged s [(KvGet "ai-insights", true); (DbRead QInsightsSample, true);
                    (AiRun chat_model, true)])).
  Proof.
    intros Hmiss Hchat Hput. rewrite (insights_miss s Hmiss).
    erewrite try_catch_ok.
    2:{ unfold insights_attempt. erewrite bind_ok by (apply chat_ok, Hchat).
        unfold get_state at 1. erewrite bind_ok by reflexivity.
        erewrite bind_ok by (apply cache_put_ok, Hput). reflexivity. }
    unfold asked. rewrite !logged_logged. reflexivity.
  Qed.

End Insights.

(** ** C3: a failing read of the cache *)




(** ** C2: a failing write of the cache *)




(** ** C7 and C10: the summarizer fails *)

(** C7: on a request for the insights that reaches the summarizer (the read
    of the cache misses, the statement succeeds), a failure of the
    summarizer is not raised to the caller: [getAIInsights] returns
    normally, with status 200, the fixed message and the time of
    generation. *)
Theorem summarizer_failure_gives_fallback rt env s e :
  kv_get_error env "ai-insights" = None ->
  db_read_error env QInsightsSample = None ->
  cache_miss "ai-insights" s ->
  ai_chat env Worker.insights_system (insights_prompt s) = Throw e ->
  fst (Worker.getAIInsights rt env s)
  = Ok {| status := 200; content_type := "application/json";
          body := Json.stringify
                    (JObj [("insights",
                            JStr "AI analysis temporarily unavailable. Using cached data.");
                           ("generated_at", JStr (toISOString rt (clock s)))]) |}.
Proof.
  intros Hget Hread Hmiss Hchat.
  rewrite (insights_chat_throws rt env Hget Hread s e Hmiss Hchat). reflexivity.
Qed.

Lemma summarizer_failure_gives_fallback_witness :
  fst (Worker.getAIInsights Fixture.rt Fixture.ai_down Fixture.two_records)
  = Ok {| status := 200; content_type := "application/json";
          body := Json.stringify
                    (JObj [("insights",
                            JStr "AI analysis temporarily unavailable. Using cached data.");
                           ("generated_at", JStr "1000000000")]) |}.
Proof.
  apply (summarizer_failure_gives_fallback Fixture.rt Fixture.ai_down
           Fixture.two_records "AI unavailable"); reflexivity.
Defined.

Lemma cache_miss_later key dt s events :
  0 <= dt -> cache_miss key s -> cache_miss key (tick dt (logged s events)).
Proof.
  unfold cache_miss, cached_text. cbn [kv clock tick logged]. intros Hdt.
  destruct (kv s !! key) as [entry|]; [|trivial].
  destruct (clock s <? kv_expires entry) eqn:Hnow;
    destruct (clock s + dt <? kv_expires entry) eqn:Hlater; trivial.
  apply Z.ltb_ge in Hnow. apply Z.ltb_lt in Hlater. lia.
Qed.

(** A miss on the insights always asks the summarizer. *)
Lemma insights_miss_asks rt env s :
  kv_get_error env "ai-insights" = None ->
  db_read_error env QInsightsSample = None ->
  cache_miss "ai-insights" s ->
  exists ok rest,
    trace (snd (Worker.getAIInsights rt env s))
    = (trace s ++ [(KvGet "ai-insights", true); (DbRead QInsightsSample, true);
                   (AiRun chat_model, ok)] ++ rest)%list.
Proof.
  intros Hget Hread Hmiss.
  destruct (ai_chat env Worker.insights_system (insights_prompt s)) as [[out|]|e] eqn:Hchat.
  - destruct (kv_put_error env "ai-insights") as [e|] eqn:Hput.
    + rewrite (insights_put_throws rt env Hget Hread s out e Hmiss Hchat Hput).
      eexists true, [_]. reflexivity.
    + rewrite (insights_stored rt env Hget Hread s out Hmiss Hchat Hput).
      eexists true, [_]. cbn [snd stored logged trace]. rewrite <- app_assoc. reflexivity.
  - rewrite (insights_chat_null rt env Hget Hread s Hmiss Hchat).
    exists true, []. reflexivity.
  - rewrite (insights_chat_throws rt env Hget Hread s e Hmiss Hchat).
    exists false, []. reflexivity.
Qed.

(** C10: on a miss, when the summarizer fails the fallback is returned
    without any write of the cache: the calls made are the read of the
    cache, the statement and the run of the model, and the KV store is
    left as it was, so that the next request for the insights, at any
    later time, misses again and asks the summarizer again.  When the
    summarizer answers and the write succeeds, the payload returned is the
    one stored under [ai-insights], for 600 seconds. *)
Theorem fallback_is_not_cached rt env s :
  kv_get_error env "ai-insights" = None ->
  db_read_error env QInsightsSample = None ->
  cache_miss "ai-insights" s ->
  (forall e,
      ai_chat env Worker.insights_system (insights_prompt s) = Throw e ->
      let s1 := snd (Worker.getAIInsights rt env s) in
      fst (Worker.getAIInsights rt env s) = Ok (fallback_response rt s) /\
      kv s1 = kv s /\
      trace s1 = (trace s ++ [(KvGet "ai-insights", true); (DbRead QInsightsSample, true);
                              (AiRun chat_model, false)])%list /\
      forall rt' env' dt,
        0 <= dt ->
        kv_get_error env' "ai-insights" = None ->
        db_read_error env' QInsightsSample = None ->
        exists ok rest,
          trace (snd (Worker.getAIInsights rt' env' (tick dt s1)))
          = (trace s1 ++ [(KvGet "ai-insights", true); (DbRead QInsightsSample, true);
                          (AiRun chat_model, ok)] ++ rest)%list) /\
  (forall out,
      ai_chat env Worker.insights_system (insights_prompt s) = Ok (Some out) ->
      kv_put_error env "ai-insights" = None ->
      let payload := Worker.insights_payload rt (insights_text out) (clock s) in
      Worker.getAIInsights rt env s
      = (Ok (Worker.json_response payload),
         stored "ai-insights" payload 600
           (logged s [(KvGet "ai-insights", true); (DbRead QInsightsSample, true);
                      (AiRun chat_model, true)]))).
Proof.
  intros Hget Hread Hmiss. split.
  - intros e Hchat. cbn zeta.
    rewrite (insights_chat_throws rt env Hget Hread s e Hmiss Hchat).
    cbn [fst snd]. repeat split.
    intros rt' env' dt Hdt Hget' Hread'.
    destruct (insights_miss_asks rt' env' _ Hget' Hread'
                (cache_miss_later "ai-insights" dt s
                   [(KvGet "ai-insights", true); (DbRead QInsightsSample, true);
                    (AiRun chat_model, false)] Hdt Hmiss)) as (ok & rest & Hasks).
    exists ok, rest. exact Hasks.
  - intros out Hchat Hput. cbn zeta.
    apply (insights_stored rt env Hget Hread s out Hmiss Hchat Hput).
Qed.

Lemma fallback_is_not_cached_witness :
  kv (snd (Worker.getAIInsights Fixture.rt Fixture.ai_down Fixture.two_records))
  = kv Fixture.two_records.
Proof.
  assert (Hmiss : cache_miss "ai-insights" Fixture.two_records) by reflexivity.
  destruct (fallback_is_not_cached Fixture.rt Fixture.ai_down Fixture.two_records
              eq_refl eq_refl Hmiss) as [Hfail _].
  destruct (Hfail "AI unavailable" eq_refl) as (_ & Hkv & _).
  exact Hkv.
Defined.

(** ** C8: the recent issues *)


Lemma db_insert_ok env f s :
  db_insert_error env f = None ->
  Binding.db_insert env f s = (Ok (last_row_id s + 1), inserted f s).
Proof. intros H. unfold Binding.db_insert. rewrite H. reflexivity. Qed.



(** ** C6: the fallback classification *)

Lemma keyword_sentiment_as_specified text :
  Worker.keyword_sentiment text = fallback_as_specified text.
Proof.
  unfold Worker.keyword_sentiment, fallback_as_specified.
  cbn [existsb positive_keywords negative_keywords].
  rewrite !orb_false_r, !orb_assoc. reflexivity.
Qed.

Lemma no_keyword_neutral text :
  (forall k, k ∈ (positive_keywords ++ negative_keywords)%list ->
             Str.includes k (Str.toLowerCase text) = false) ->
  fallback_as_specified text = "neutral".
Proof.
  intros Hno. unfold fallback_as_specified.
  assert (Hpos : existsb (fun k => Str.includes k (Str.toLowerCase text)) positive_keywords
                 = false).
  { apply not_true_is_false. intros H. apply existsb_exists in H as (k & Hin & Hk).
    rewrite Hno in Hk; [discriminate|]. apply elem_of_app. left.
    apply list_elem_of_In. exact Hin. }
  assert (Hneg : existsb (fun k => Str.includes k (Str.toLowerCase text)) negative_keywords
                 = false).
  { apply not_true_is_false. intros H. apply existsb_exists in H as (k & Hin & Hk).
    rewrite Hno in Hk; [discriminate|]. apply elem_of_app. right.
    apply list_elem_of_In. exact Hin. }
  rewrite Hpos, Hneg. reflexivity.
Qed.

Lemma append_cons c a b : String c a ++ b = String c (a ++ b).
Proof. reflexivity. Qed.

Lemma prefix_spec k : forall s,
  String.prefix k s = true <-> exists b, s = k ++ b.
Proof.
  induction k as [|a k IH]; intros s.
  - split; [intros _; exists s; reflexivity|]. intros _. destruct s; reflexivity.
  - destruct s as [|b s]; cbn [String.prefix].
    + split; [discriminate|]. intros [x H]. discriminate H.
    + destruct (ascii_dec a b) as [->|Hne].
      * rewrite IH. split; intros [x H]; exists x.
        -- rewrite H. reflexivity.
        -- rewrite append_cons in H. congruence.
      * split; [discriminate|]. intros [x H]. rewrite append_cons in H. congruence.
Qed.

Lemma includes_spec k s :
  Str.includes k s = true <-> exists a b, s = a ++ k ++ b.
Proof.
  induction s as [|c s IH]; cbn [Str.includes]; rewrite orb_true_iff, prefix_spec.
  - split.
    + intros [[b H]|H]; [|discriminate]. exists EmptyString, b. exact H.
    + intros (a & b & H). left. destruct a; [|discriminate H]. exists b. exact H.
  - rewrite IH. split.
    + intros [[b H]|(a & b & H)].
      * exists EmptyString, b. exact H.
      * exists (String c a), b. rewrite H. reflexivity.
    + intros (a & b & H). destruct a as [|c' a].
      * left. exists b. exact H.
      * right. exists a, b. rewrite append_cons in H. congruence.
Qed.

Lemma lower_ascii_small c k :
  small_letter k -> (Str.lower_ascii c = k <-> same_letter c k).
Proof.
  intros [Hlo Hhi]. unfold same_letter, capital, Str.lower_ascii.
  pose proof (nat_ascii_bounded c) as Hc.
  destruct (Nat.leb_spec 65 (nat_of_ascii c)) as [H65|H65];
    destruct (Nat.leb_spec (nat_of_ascii c) 90) as [H90|H90]; cbn [andb].
  - split.
    + intros H. right. apply (f_equal nat_of_ascii) in H.
      rewrite nat_ascii_embedding in H by lia. rewrite <- H.
      replace (nat_of_ascii c + 32 - 32)%nat with (nat_of_ascii c) by lia.
      symmetry. apply ascii_nat_embedding.
    + intros [H|H].
      * subst c. lia.
      * rewrite H, nat_ascii_embedding by lia.
        replace (nat_of_ascii k - 32 + 32)%nat with (nat_of_ascii k) by lia.
        apply ascii_nat_embedding.
  - split; [intros H; left; exact H|]. intros [H|H]; [exact H|].
    rewrite H, nat_ascii_embedding in H90 by lia. lia.
  - split; [intros H; left; exact H|]. intros [H|H]; [exact H|].
    rewrite H, nat_ascii_embedding in H65 by lia. lia.
  - lia.
Qed.

Lemma toLowerCase_spells kw : forall w,
  small_word kw -> (Str.toLowerCase w = kw <-> spells kw w).
Proof.
  induction kw as [|k kw IH]; intros w Hkw.
  - destruct w; cbn; split; (discriminate || contradiction || auto).
  - apply Forall_cons in Hkw as [Hk Hkw].
    destruct w as [|c w]; cbn [Str.toLowerCase spells].
    + split; [discriminate | contradiction].
    + rewrite <- (IH w Hkw), <- (lower_ascii_small c k Hk). split.
      * intros H. injection H as H1 H2. split; assumption.
      * intros [H1 H2]. rewrite H1, H2. reflexivity.
Qed.

Lemma toLowerCase_app a b :
  Str.toLowerCase (a ++ b) = Str.toLowerCase a ++ Str.toLowerCase b.
Proof.
  induction a as [|c a IH]; [reflexivity|].
  rewrite append_cons. cbn [Str.toLowerCase]. rewrite IH. reflexivity.
Qed.

Lemma toLowerCase_split x : forall t y,
  Str.toLowerCase t = x ++ y ->
  exists t1 t2, t = t1 ++ t2 /\ Str.toLowerCase t1 = x /\ Str.toLowerCase t2 = y.
Proof.
  induction x as [|a x IH]; intros t y H.
  - exists EmptyString, t. auto.
  - destruct t as [|c t]; [discriminate H|].
    rewrite append_cons in H. cbn [Str.toLowerCase] in H. injection H as Hc Ht.
    destruct (IH t y Ht) as (t1 & t2 & -> & H1 & H2).
    exists (String c t1), t2. cbn [Str.toLowerCase]. rewrite Hc, H1. auto.
Qed.

(** What the fallback tests, [lowerText.includes(kw)], is that the keyword
    occurs in the text in letters of any case. *)
Lemma includes_lowered kw text :
  small_word kw ->
  (Str.includes kw (Str.toLowerCase text) = true <-> occurs_in kw text).
Proof.
  intros Hkw. rewrite includes_spec. split.
  - intros (a & b & H).
    destruct (toLowerCase_split a _ _ H) as (t1 & t2 & -> & _ & H2).
    destruct (toLowerCase_split kw _ _ H2) as (w & t3 & -> & Hw & _).
    exists t1, w, t3. split; [reflexivity|]. apply toLowerCase_spells; assumption.
  - intros (before & w & after & -> & Hw).
    exists (Str.toLowerCase before), (Str.toLowerCase after).
    rewrite !toLowerCase_app. apply toLowerCase_spells in Hw; [|exact Hkw].
    rewrite Hw. reflexivity.
Qed.

Lemma keywords_small :
  Forall small_word positive_keywords /\ Forall small_word negative_keywords.
Proof.
  split; repeat constructor; unfold small_letter; cbn; lia.
Qed.

Lemma keyword_occurs ks text :
  Forall small_word ks ->
  (existsb (fun k => Str.includes k (Str.toLowerCase text)) ks = true
   <-> exists k, k ∈ ks /\ occurs_in k text).
Proof.
  intros Hks. rewrite existsb_exists. split.
  - intros (k & Hin & Hk). apply list_elem_of_In in Hin. exists k. split; [exact Hin|].
    apply includes_lowered; [|exact Hk].
    rewrite Forall_forall in Hks. apply Hks, Hin.
  - intros (k & Hin & Hk). exists k. split; [apply list_elem_of_In, Hin|].
    apply includes_lowered; [|exact Hk].
    rewrite Forall_forall in Hks. apply Hks, Hin.
Qed.

(** C6: when the run of the classifier throws, [analyzeSentiment] does not
    throw and makes no other call; for an ASCII text its result is
    positive exactly when one of the positive keywords occurs in the text,
    in letters of any case; negative exactly when no positive keyword
    occurs and one of the negative keywords does; and neutral exactly when
    no keyword occurs.  So "this is broken and slow" is negative. *)
Theorem classifier_failure_falls_back env text s e :
  ascii_text text ->
  ai_classify env (Str.take 500 text) = Throw e ->
  exists r,
    Worker.analyzeSentiment env text s
    = (Ok r, logged s [(AiRun classifier_model, false)]) /\
    (r = "positive" <-> exists k, k ∈ positive_keywords /\ occurs_in k text) /\
    (r = "negative" <->
     (forall k, k ∈ positive_keywords -> ~ occurs_in k text) /\
     exists k, k ∈ negative_keywords /\ occurs_in k text) /\
    (r = "neutral" <->
     forall k, k ∈ (positive_keywords ++ negative_keywords)%list -> ~ occurs_in k text) /\
    (text = "this is broken and slow" -> r = "negative").
Proof.
  intros _ Hfail. exists (Worker.keyword_sentiment text).
  split.
  { unfold Worker.analyzeSentiment.
    erewrite try_catch_throw by (apply bind_throw, classifier_throw, Hfail).
    reflexivity. }
  destruct keywords_small as [Hpos Hneg].
  pose proof (keyword_occurs positive_keywords text Hpos) as Hp.
  pose proof (keyword_occurs negative_keywords text Hneg) as Hn.
  rewrite keyword_sentiment_as_specified. unfold fallback_as_specified. cbn zeta.
  destruct (existsb _ positive_keywords) eqn:Ep;
    [|destruct (existsb _ negative_keywords) eqn:En].
  - assert (exists k, k ∈ positive_keywords /\ occurs_in k text) as (k & Hk & Ho)
        by (apply Hp; reflexivity).
    split; [split; [intros _; eauto | reflexivity]|].
    split; [split; [discriminate | intros [Hno _]; destruct (Hno k Hk Ho)]|].
    split; [split; [discriminate|]|].
    + intros Hno. destruct (Hno k); [apply elem_of_app; left; exact Hk | exact Ho].
    + intros ->. discriminate Ep.
  - assert (exists k, k ∈ negative_keywords /\ occurs_in k text) as (k & Hk & Ho)
        by (apply Hn; reflexivity).
    assert (forall k, k ∈ positive_keywords -> ~ occurs_in k text) as Hnone.
    { intros k' Hk' Ho'. assert (false = true) as H by (apply Hp; eauto). discriminate H. }
    split; [split; [discriminate | intros H; apply Hp in H; discriminate H]|].
    split; [split; [intros _; eauto | reflexivity]|].
    split; [split; [discriminate|] | reflexivity].
    intros Hno. destruct (Hno k); [apply elem_of_app; right; exact Hk | exact Ho].
  - split; [split; [discriminate | intros H; apply Hp in H; discriminate H]|].
    split; [split; [discriminate | intros [_ H]; apply Hn in H; discriminate H]|].
    split; [split; [|reflexivity]|].
    + intros _ k Hk Ho. apply elem_of_app in Hk as [Hk|Hk].
      * assert (false = true) as H by (apply Hp; eauto). discriminate H.
      * assert (false = true) as H by (apply Hn; eauto). discriminate H.
    + intros ->. discriminate En.
Qed.

Lemma classifier_failure_falls_back_witness :
  fst (Worker.analyzeSentiment Fixture.ai_down "Deploy is BROKEN and Slow" Fixture.empty)
  = Ok "negative".
Proof.
  destruct (classifier_failure_falls_back Fixture.ai_down "Deploy is BROKEN and Slow"
              Fixture.empty "AI unavailable")
    as (r & Hrun & _ & Hneg & _).
  - repeat constructor; cbn; lia.
  - reflexivity.
  - rewrite Hrun. cbn [fst]. f_equal. apply Hneg. split.
    + intros k Hk Ho. destruct keywords_small as [Hpos _].
      assert (Str.includes k (Str.toLowerCase "Deploy is BROKEN and Slow") = true) as Hinc.
      { apply includes_lowered; [|exact Ho].
        rewrite Forall_forall in Hpos. apply Hpos, Hk. }
      repeat (apply elem_of_cons in Hk as [->|Hk]; [discriminate Hinc|]).
      apply elem_of_nil in Hk. exact Hk.
    + exists "broken". split; [right; right; left|].
      exists "Deploy is ", "BROKEN", " and Slow". split; [reflexivity|].
      cbn [spells]. repeat split; right; reflexivity.
Defined.

(** ** C9: the average over no rows *)

(** Without the guard the division would be 0 / 0. *)
Remark unguarded_average_of_nothing rt :
  Num.toFixed (numberToString rt) 1 (Num.div (Num.of_Z 0) (Num.of_Z 0)) = "NaN".
Proof. reflexivity. Qed.

(** C9: over the empty table the average of [getStats] is the text "0.0":
    the division by the number of rows is not evaluated, and the request
    is answered with zero counts and that text. *)
Theorem average_of_empty_table rt env s :
  rows s = [] ->
  kv_get_error env "stats" = None ->
  cache_miss "stats" s ->
  db_reads_ok env ->
  kv_put_error env "stats" = None ->
  Worker.avgScore rt (Sql.scores (rows s)) = "0.0" /\
  fst (Worker.getStats rt env s)
  = Ok (Worker.json_response
          (Json.stringify (JObj [("total", JNum 0); ("avgSentiment", JStr "0.0");
                                 ("unresolved", JNum 0); ("repeatUsers", JNum 0)]))).
Proof.
  intros Hrows Hget Hmiss Hdb Hput. split.
  - rewrite Hrows. reflexivity.
  - change (Worker.getStats rt env) with (handler rt env Stats).
    rewrite (aggregate_miss rt env Stats s ltac:(discriminate) Hget Hmiss Hdb).
    erewrite bind_ok by (apply cache_put_ok, Hput).
    cbn [fresh_payload mret M_ret fst]. unfold stats_payload. rewrite Hrows. reflexivity.
Qed.

Lemma average_of_empty_table_witness :
  Worker.avgScore Fixture.rt (Sql.scores (rows Fixture.empty)) = "0.0".
Proof.
  apply (average_of_empty_table Fixture.rt Fixture.healthy Fixture.empty).
  - reflexivity.
  - reflexivity.
  - reflexivity.
  - intros q. reflexivity.
  - reflexivity.
Defined.

(** ** C1: the order of invalidation and writes in [seedDatabase] *)

Section Seed.
Variable env : Env.

Lemma cache_delete_ok key s :
  kv_delete_error env key = None ->
  Binding.cache_delete env key s = (Ok tt, deleted key s).
Proof. intros H. unfold Binding.cache_delete. rewrite H. reflexivity. Qed.

Lemma cache_delete_throw key e s :
  kv_delete_error env key = Some e ->
  Binding.cache_delete env key s = (Throw e, logged s [(KvDelete key, false)]).
Proof. intros H. unfold Binding.cache_delete. rewrite H. reflexivity. Qed.

(** [analyzeSentiment] never throws and makes one call, on the model. *)
Lemma classifier_ok text r s :
  ai_classify env text = Ok r ->
  Binding.ai_run_classifier env text s = (Ok r, logged s [(AiRun classifier_model, true)]).
Proof. intros H. unfold Binding.ai_run_classifier. rewrite H. reflexivity. Qed.




End Seed.


Ltac seed_delete env s' :=
  lazymatch goal with
  | |- context [Binding.cache_delete env ?key ≫= ?k] =>
      let e := fresh "e" in
      let H := fresh "Hdel" in
      destruct (kv_delete_error env key) as [e|] eqn:H;
      [ rewrite (bind_throw _ k _ _ _ (cache_delete_throw env key e s' H))
      | rewrite (bind_ok _ k _ _ _ (cache_delete_ok env key s' H)) ]
  end.



(** ** ORDER BY *)

Section OrderBy.
Context {A : Type} (key : A -> Z).

Lemma insert_desc_perm x l : Sql.insert_desc key x l ≡ₚ x :: l.
Proof.
  induction l as [|y l IH]; cbn [Sql.insert_desc]; [reflexivity|].
  destruct (key y <=? key x); [reflexivity|].
  rewrite IH. apply Permutation_swap.
Qed.

Lemma order_by_desc_perm l : Sql.order_by_desc key l ≡ₚ l.
Proof.
  unfold Sql.order_by_desc. induction l as [|x l IH]; cbn [foldr]; [reflexivity|].
  rewrite insert_desc_perm, IH. reflexivity.
Qed.

Lemma insert_desc_sorted x l :
  StronglySorted (fun a b => key b <= key a) l ->
  StronglySorted (fun a b => key b <= key a) (Sql.insert_desc key x l).
Proof.
  induction l as [|y l IH]; intros Hs; cbn [Sql.insert_desc].
  - repeat constructor.
  - apply StronglySorted_inv in Hs as [Hl Hy].
    destruct (key y <=? key x) eqn:E.
    + apply Z.leb_le in E. constructor; [constructor; assumption|].
      constructor; [exact E|].
      eapply Forall_impl; [exact Hy|]. cbn. intros z Hz. lia.
    + apply Z.leb_gt in E. constructor; [apply IH, Hl|].
      rewrite (insert_desc_perm x l). constructor; [lia | exact Hy].
Qed.

Lemma order_by_desc_sorted l :
  StronglySorted (fun a b => key b <= key a) (Sql.order_by_desc key l).
Proof.
  unfold Sql.order_by_desc. induction l as [|x l IH]; cbn [foldr].
  - constructor.
  - apply insert_desc_sorted, IH.
Qed.

Lemma sorted_descending l :
  StronglySorted (fun a b => key b <= key a) l -> descending key l.
Proof.
  unfold descending. induction 1 as [|x l Hl IH Hx]; intros i j a b Hij Hi Hj.
  - rewrite lookup_nil in Hi. discriminate.
  - destruct j as [|j]; [lia|]. cbn in Hj.
    destruct i as [|i]; cbn in Hi.
    + injection Hi as <-. rewrite Forall_forall in Hx. apply Hx.
      apply list_elem_of_lookup. eauto.
    + apply (IH i j); [lia | assumption | assumption].
Qed.

Lemma order_by_desc_descending l : descending key (Sql.order_by_desc key l).
Proof. apply sorted_descending, order_by_desc_sorted. Qed.

Lemma descending_take n l : descending key l -> descending key (take n l).
Proof.
  intros Hd i j a b Hij Hi Hj.
  apply lookup_take_Some in Hi as [Hi _]. apply lookup_take_Some in Hj as [Hj _].
  apply (Hd i j); assumption.
Qed.

End OrderBy.

(** ** C4: the repeat users *)

Lemma repeat_users_unfold l :
  Sql.repeat_users l
  = take 5 (Sql.order_by_desc Sql.complaint_count
              (repeat_user_candidates
                 (remove_dups (map user_email (repeat_user_selection l)))
                 (repeat_user_selection l))).
Proof. reflexivity. Qed.

Lemma selection_of_user u l :
  filter (fun r => user_email r = Some u) (repeat_user_selection l) = complaints u l.
Proof.
  unfold repeat_user_selection, complaints. rewrite list_filter_filter.
  apply list_filter_iff. intros r. split.
  - intros (He & Hu & _). split; assumption.
  - intros (Hu & He). repeat split; try assumption. rewrite He. eauto.
Qed.

Lemma candidates_cons k keys sel :
  repeat_user_candidates (k :: keys) sel
  = (match k with
     | Some u =>
         if decide (1 < length (filter (fun r => user_email r = Some u) sel))%nat
         then [ {| Sql.ru_user_email := u;
                   Sql.complaint_count :=
                     Z.of_nat (length (filter (fun r => user_email r = Some u) sel));
                   Sql.issues :=
                     Str.join " | "
                       (map title (filter (fun r => user_email r = Some u) sel)) |} ]
         else []
     | None => []
     end ++ repeat_user_candidates keys sel)%list.
Proof.
  unfold repeat_user_candidates. cbn [map]. rewrite filter_cons. cbn [snd].
  destruct k as [u|].
  - destruct (decide (1 < length (filter (fun r => user_email r = Some u) sel))%nat);
      reflexivity.
  - destruct (decide (1 < length (filter (fun r => user_email r = None) sel))%nat);
      reflexivity.
Qed.

Lemma candidates_elem keys l row :
  row ∈ repeat_user_candidates keys (repeat_user_selection l) <->
  exists u, Some u ∈ keys /\ row = repeat_user_row u l /\ (2 <= length (complaints u l))%nat.
Proof.
  induction keys as [|k keys IH].
  - split; [intros H; apply elem_of_nil in H; contradiction|].
    intros (u & H & _). apply elem_of_nil in H. contradiction.
  - rewrite candidates_cons, elem_of_app, IH. clear IH. split.
    + intros [Hk|(u & Hu & Hrow)].
      * destruct k as [u|]; [|apply elem_of_nil in Hk; contradiction].
        rewrite selection_of_user in Hk.
        destruct (decide _) as [Hlen|]; [|apply elem_of_nil in Hk; contradiction].
        apply list_elem_of_singleton in Hk. exists u. split; [left|].
        split; [exact Hk | lia].
      * exists u. split; [right; exact Hu | exact Hrow].
    + intros (u & Hu & Hrow & Hlen). apply elem_of_cons in Hu as [<-|Hu].
      * left. rewrite selection_of_user.
        destruct (decide _) as [|Hn]; [|lia].
        apply list_elem_of_singleton. exact Hrow.
      * right. exists u. auto.
Qed.

Lemma candidates_NoDup keys l :
  NoDup keys ->
  NoDup (map Sql.ru_user_email (repeat_user_candidates keys (repeat_user_selection l))).
Proof.
  induction 1 as [|k keys Hk Hkeys IH]; [constructor|].
  rewrite candidates_cons, map_app. apply NoDup_app. split; [|split; [|exact IH]].
  - destruct k as [u|]; [|constructor].
    destruct (decide _); [|constructor]. apply NoDup_singleton.
  - intros u Hu Hin. apply (list_elem_of_fmap Sql.ru_user_email) in Hin as (row & -> & Hrow).
    apply candidates_elem in Hrow as (u' & Hu' & -> & _). cbn in Hu.
    destruct k as [u|]; [|apply elem_of_nil in Hu; contradiction].
    destruct (decide _); [|apply elem_of_nil in Hu; contradiction].
    apply list_elem_of_singleton in Hu. cbn in Hu. subst u'. contradiction.
Qed.

(** C4, as stated, fails on the titles: a user with two open records under
    one title gets that title twice in [issues]. *)
Lemma repeat_user_titles_are_not_distinct :
  Sql.repeat_users Fixture.same_title_twice
  = [ {| Sql.ru_user_email := "dev@company.com"; Sql.complaint_count := 2;
         Sql.issues := "Dashboard loading takes 5+ seconds | Dashboard loading takes 5+ seconds" |} ]
  /\ Sql.issues (repeat_user_row_distinct "dev@company.com" Fixture.same_title_twice)
     = "Dashboard loading takes 5+ seconds"
  /\ Sql.repeat_users Fixture.same_title_twice
     <> [ repeat_user_row_distinct "dev@company.com" Fixture.same_title_twice ].
Proof.
  split; [vm_compute; reflexivity|]. split; [vm_compute; reflexivity|].
  vm_compute. intros H. discriminate H.
Qed.

(** C4, amended: the view groups the unresolved records that have a user
    identifier by that identifier and keeps exactly the groups of size at
    least 2; it returns at most five of them, one row per user, in
    descending order of size, and a group that is left out is no larger
    than any returned one.  Each row carries the identifier, the size of
    the group and the titles of all the records of the group, one per
    record and repeated when records share a title, joined by " | ". *)
Theorem repeat_users_view l :
  let out := Sql.repeat_users l in
  (length out <= 5)%nat /\
  (forall row, row ∈ out ->
     row = repeat_user_row (Sql.ru_user_email row) l /\ 2 <= Sql.complaint_count row) /\
  NoDup (map Sql.ru_user_email out) /\
  descending Sql.complaint_count out /\
  (forall u, (2 <= length (complaints u l))%nat ->
     repeat_user_row u l ∈ out \/
     (length out = 5%nat /\
      forall row, row ∈ out -> Z.of_nat (length (complaints u l)) <= Sql.complaint_count row)).
Proof.
  cbn zeta. rewrite repeat_users_unfold.
  set (sel := repeat_user_selection l).
  set (cands := repeat_user_candidates (remove_dups (map user_email sel)) sel).
  set (sorted := Sql.order_by_desc Sql.complaint_count cands).
  assert (Hperm : sorted ≡ₚ cands) by apply order_by_desc_perm.
  assert (Hdesc : descending Sql.complaint_count sorted) by apply order_by_desc_descending.
  assert (Hcand : forall row, row ∈ sorted <->
            exists u, Some u ∈ remove_dups (map user_email sel) /\
                      row = repeat_user_row u l /\ (2 <= length (complaints u l))%nat).
  { intros row. rewrite Hperm. apply candidates_elem. }
  split; [rewrite length_take; lia|]. split; [|split; [|split]].
  - intros row Hrow. apply elem_of_take in Hrow as (i & Hi & _).
    assert (row ∈ sorted) as Hin by (apply list_elem_of_lookup; eauto).
    apply Hcand in Hin as (u & _ & -> & Hlen). split; [reflexivity|]. cbn. lia.
  - assert (NoDup (map Sql.ru_user_email sorted)) as Hnd.
    { change (NoDup (Sql.ru_user_email <$> sorted)). rewrite Hperm.
      apply candidates_NoDup, NoDup_remove_dups. }
    rewrite <- (take_drop 5 sorted), map_app in Hnd.
    apply NoDup_app in Hnd as [Hnd _]. exact Hnd.
  - apply descending_take, Hdesc.
  - intros u Hlen.
    assert (repeat_user_row u l ∈ sorted) as Hin.
    { apply Hcand. exists u. split; [|split; [reflexivity | exact Hlen]].
      apply elem_of_remove_dups.
      destruct (complaints u l) as [|r rest] eqn:Hc; [cbn in Hlen; lia|].
      assert (r ∈ complaints u l) as Hr by (rewrite Hc; left).
      rewrite <- selection_of_user in Hr. apply list_elem_of_filter in Hr as [Hu Hr].
      rewrite <- Hu. apply list_elem_of_fmap_2. exact Hr. }
    apply list_elem_of_lookup in Hin as [k Hk].
    destruct (decide (k < 5)%nat) as [Hlt|Hge].
    + left. apply elem_of_take. eauto.
    + right. apply lookup_lt_Some in Hk as Hbound. split.
      * rewrite length_take. lia.
      * intros row Hrow. apply elem_of_take in Hrow as (i & Hi & Hi5).
        change (Sql.complaint_count (repeat_user_row u l) <= Sql.complaint_count row).
        apply (Hdesc i k); [lia | assumption | assumption].
Qed.

Lemma repeat_users_view_witness :
  repeat_user_row "dev@company.com" Fixture.same_title_twice
  ∈ Sql.repeat_users Fixture.same_title_twice.
Proof.
  destruct (repeat_users_view Fixture.same_title_twice) as (_ & _ & _ & _ & H).
  destruct (H "dev@company.com") as [Hin|[Hlen _]].
  - vm_compute. lia.
  - exact Hin.
  - discriminate Hlen.
Defined.

(** ** Binary64 arithmetic on small integers *)

Module Binary64.















(** ** Addition of small integers *)



(** ** Division *)














End Binary64.

(** ** C5: the average sentiment *)












(** When the exact average lies halfway between two tenths, either is a
    nearest one; the binary64 quotient decides.  For 19 negative rows and a
    neutral one the average is 2.15, the quotient lies just below it, and
    the text is 2.1. *)
Remark average_halfway rt :
  specified_total (Fixture.row 0 "t" None (Some "neutral") 0 None
               :: repeat (Fixture.row 0 "t" None None 0 None) 19) = 43 /\
  Worker.avgScore rt
    (Sql.scores (Fixture.row 0 "t" None (Some "neutral") 0 None
                 :: repeat (Fixture.row 0 "t" None None 0 None) 19)) = "2.1".
Proof. split; reflexivity. Qed.


(** * Further properties *)

(** ** The cache in front of the views *)

(** X1: when the cache holds a live, non-empty text under the key of a
    view, the handler answers with that text and makes no other call: no
    statement is run, the model is not asked, nothing is written. *)
Theorem cached_view_is_served rt env v s text :
  kv_get_error env (view_key v) = None ->
  cached_text (view_key v) s = Some text ->
  text <> EmptyString ->
  handler rt env v s
  = (Ok (Worker.json_response text), logged s [(KvGet (view_key v), true)]).
Proof.
  intros Hget Hcached Hne.
  assert (Hhit : Worker.hit (Some text) = Some text)
    by (destruct text; [contradiction | reflexivity]).
  destruct v; cbn [handler view_key] in *;
    unfold Worker.getStats, Worker.getTopIssues, Worker.getRepeatUsers,
           Worker.getLongestUnresolved, Worker.getAIInsights;
    rewrite (bind_ok _ _ _ _ _ (cache_get_ok env _ s Hget)), Hcached, Hhit;
    reflexivity.
Qed.

Lemma cached_view_is_served_witness :
  fst (handler Fixture.rt Fixture.ai_down AIInsights
         (stored "ai-insights" "cached insights" 600 Fixture.two_records))
  = Ok (Worker.json_response "cached insights").
Proof.
  rewrite (cached_view_is_served Fixture.rt Fixture.ai_down AIInsights
             (stored "ai-insights" "cached insights" 600 Fixture.two_records)
             "cached insights"); [reflexivity | reflexivity | reflexivity | discriminate].
Defined.

Lemma fresh_payload_nonempty rt v s : is_aggregate v -> fresh_payload rt v s <> EmptyString.
Proof. intros Hv. destruct v; try discriminate. contradiction. Qed.

Lemma aggregate_populated rt env v s :
  is_aggregate v ->
  kv_get_error env (view_key v) = None ->
  cache_miss (view_key v) s ->
  db_reads_ok env ->
  kv_put_error env (view_key v) = None ->
  populated rt env v (fresh_payload rt v s) s.
Proof.
  intros Hv Hget Hmiss Hdb Hput. exists ((KvGet (view_key v), true) :: view_reads v).
  rewrite (aggregate_miss rt env v s Hv Hget Hmiss Hdb).
  erewrite bind_ok by (apply cache_put_ok, Hput).
  destruct v; try reflexivity. contradiction.
Qed.


Lemma cached_text_stored key payload ttl s dt :
  cached_text key (tick dt (stored key payload ttl s))
  = if dt <? ttl then Some payload else None.
Proof.
  unfold cached_text. cbn [kv clock tick stored]. rewrite lookup_insert_eq.
  cbn [kv_expires kv_value].
  destruct (dt <? ttl) eqn:E1; destruct (clock s + dt <? clock s + ttl) eqn:E2;
    try reflexivity.
  - apply Z.ltb_lt in E1. apply Z.ltb_ge in E2. lia.
  - apply Z.ltb_ge in E1. apply Z.ltb_lt in E2. lia.
Qed.


Lemma populated_then_expired rt env v payload s dt :
  populated rt env v payload s -> view_ttl v <= dt ->
  cache_miss (view_key v) (tick dt (snd (handler rt env v s))).
Proof.
  intros [events Hrun] Hdt. rewrite Hrun. cbn [snd]. unfold cache_miss.
  rewrite cached_text_stored.
  destruct (dt <? view_ttl v) eqn:E; [apply Z.ltb_lt in E; lia | reflexivity].
Qed.



(** X3: after 300 seconds the stored payload of an aggregate view is no
    longer served: the next request misses, runs the statements again and
    answers with the payload of the table as it is then. *)
Theorem aggregate_view_expires rt env v s rt' env' dt :
  is_aggregate v ->
  kv_get_error env (view_key v) = None ->
  cache_miss (view_key v) s ->
  db_reads_ok env ->
  kv_put_error env (view_key v) = None ->
  300 <= dt ->
  kv_get_error env' (view_key v) = None ->
  db_reads_ok env' ->
  kv_put_error env' (view_key v) = None ->
  let s1 := tick dt (snd (handler rt env v s)) in
  exists events,
    handler rt' env' v s1
    = (Ok (Worker.json_response (fresh_payload rt' v s1)),
       stored (view_key v) (fresh_payload rt' v s1) 300
         (logged s1 ((KvGet (view_key v), true) :: view_reads v ++ events))).
Proof.
  intros Hv Hget Hmiss Hdb Hput Hdt Hget' Hdb' Hput'. cbn zeta.
  pose proof (aggregate_populated rt env v s Hv Hget Hmiss Hdb Hput) as Hpop.
  assert (Hmiss' : cache_miss (view_key v) (tick dt (snd (handler rt env v s)))).
  { apply (populated_then_expired rt env v _ s dt Hpop).
    destruct v; cbn [view_ttl]; try lia. contradiction. }
  exists []. rewrite app_nil_r.
  rewrite (aggregate_miss rt' env' v _ Hv Hget' Hmiss' Hdb').
  erewrite bind_ok by (apply cache_put_ok, Hput'). reflexivity.
Qed.

Lemma aggregate_view_expires_witness :
  fst (handler Fixture.rt Fixture.healthy LongestUnresolved
         (tick 300 (snd (handler Fixture.rt Fixture.healthy LongestUnresolved
                           Fixture.two_records))))
  = Ok (Worker.json_response
          (fresh_payload Fixture.rt LongestUnresolved (tick 300 Fixture.two_records))).
Proof.
  destruct (aggregate_view_expires Fixture.rt Fixture.healthy LongestUnresolved
              Fixture.two_records Fixture.rt Fixture.healthy 300
              ltac:(discriminate) eq_refl eq_refl (fun q => eq_refl) eq_refl
              ltac:(lia) eq_refl (fun q => eq_refl) eq_refl) as [events H].
  rewrite H. reflexivity.
Defined.



(** ** What a request for a view can touch *)

Section Footprint.
Variables (P : Event -> Prop) (K : string -> Prop).

Lemma footprint_refl s : footprint P K s s.
Proof.
  repeat split; try reflexivity. exists []. rewrite app_nil_r. split; [reflexivity|constructor].
Qed.

Lemma footprint_trans s1 s2 s3 :
  footprint P K s1 s2 -> footprint P K s2 s3 -> footprint P K s1 s3.
Proof.
  intros (Hr1 & Hl1 & Hc1 & Hk1 & ev1 & Ht1 & Hp1) (Hr2 & Hl2 & Hc2 & Hk2 & ev2 & Ht2 & Hp2).
  repeat split; try congruence.
  - intros key Hkey. rewrite Hk2, Hk1 by assumption. reflexivity.
  - exists (ev1 ++ ev2)%list. split.
    + rewrite Ht2, Ht1, app_assoc. reflexivity.
    + apply Forall_app. split; assumption.
Qed.

Lemma footprint_logged s events : Forall P events -> footprint P K s (logged s events).
Proof. intros H. repeat split; try reflexivity. exists events. split; [reflexivity|exact H]. Qed.

Lemma confined_ret {A} (a : A) : confined P K (mret a).
Proof. intros s. apply footprint_refl. Qed.

Lemma confined_throw {A} e : confined P K (@throw A e).
Proof. intros s. apply footprint_refl. Qed.

Lemma confined_get_state : confined P K get_state.
Proof. intros s. apply footprint_refl. Qed.

Lemma confined_bind {A B} (m : M A) (f : A -> M B) :
  confined P K m -> (forall a, confined P K (f a)) -> confined P K (m ≫= f).
Proof.
  intros Hm Hf s. unfold mbind, M_bind. specialize (Hm s).
  destruct (m s) as [[a|e] s1]; cbn [snd] in *.
  - eapply footprint_trans; [exact Hm | apply Hf].
  - exact Hm.
Qed.

Lemma confined_try_catch {A} (m : M A) h :
  confined P K m -> (forall e, confined P K (h e)) -> confined P K (try_catch m h).
Proof.
  intros Hm Hh s. unfold try_catch. specialize (Hm s).
  destruct (m s) as [[a|e] s1]; cbn [snd] in *.
  - exact Hm.
  - eapply footprint_trans; [exact Hm | apply Hh].
Qed.

Variable env : Env.

Lemma confined_cache_get key :
  (forall ok, P (KvGet key, ok)) -> confined P K (Binding.cache_get env key).
Proof.
  intros HP s. destruct (kv_get_error env key) as [e|] eqn:E.
  - rewrite (cache_get_throw env key e s E). apply footprint_logged. repeat constructor. apply HP.
  - rewrite (cache_get_ok env key s E). apply footprint_logged. repeat constructor. apply HP.
Qed.

Lemma confined_cache_put key value ttl :
  K key -> (forall ok, P (KvPut key value ttl, ok)) ->
  confined P K (Binding.cache_put env key value ttl).
Proof.
  intros HK HP s. destruct (kv_put_error env key) as [e|] eqn:E.
  - rewrite (cache_put_throw env key value ttl e s E). apply footprint_logged.
    repeat constructor. apply HP.
  - rewrite (cache_put_ok env key value ttl s E). cbn [snd]. repeat split.
    + intros k Hk. cbn [kv stored]. apply lookup_insert_ne. intros ->. contradiction.
    + exists [(KvPut key value ttl, true)]. split; [reflexivity|]. repeat constructor. apply HP.
Qed.

Lemma confined_db_read {A} q (view : State -> A) :
  (forall ok, P (DbRead q, ok)) -> confined P K (Binding.db_read env q view).
Proof.
  intros HP s. destruct (db_read_error env q) as [e|] eqn:E.
  - rewrite (db_read_throw env q view e s E). apply footprint_logged. repeat constructor. apply HP.
  - rewrite (db_read_ok env q view s E). apply footprint_logged. repeat constructor. apply HP.
Qed.

Lemma confined_chat system user :
  (forall ok, P (AiRun chat_model, ok)) -> confined P K (Binding.ai_run_chat env system user).
Proof.
  intros HP s. destruct (ai_chat env system user) as [r|e] eqn:E.
  - rewrite (chat_ok env system user r s E). apply footprint_logged. repeat constructor. apply HP.
  - rewrite (chat_throw env system user e s E). apply footprint_logged. repeat constructor. apply HP.
Qed.

End Footprint.

Ltac confine :=
  repeat first
    [ apply confined_ret | apply confined_throw | apply confined_get_state
    | apply confined_cache_get; intros ?; reflexivity
    | apply confined_cache_put; [reflexivity | intros ?; split; reflexivity]
    | apply confined_db_read; intros ?; exact I
    | apply confined_chat; intros ?; split; reflexivity
    | apply confined_bind; [|intros ?]
    | apply confined_try_catch; [|intros ?]
    | match goal with |- confined _ _ (match ?x with _ => _ end) => destruct x end ].

(** X5: a request for a cached view, whatever the bindings do, leaves the
    table, the row counter and the clock as they were and leaves every
    cache entry but the one of its own key as it was.  The calls it makes
    are reads of the cache and writes with the view's time to live (300
    seconds, 600 for the insights) under its own key, statements that read
    the table and, for the insights only, runs of the summarizer: it never
    deletes from the cache and never writes the table. *)
Theorem view_footprint rt env v s :
  footprint (view_event v) (eq (view_key v)) s (snd (handler rt env v s)).
Proof.
  revert s. change (confined (view_event v) (eq (view_key v)) (handler rt env v)).
  destruct v; cbn [handler view_key];
    unfold Worker.getStats, Worker.getTopIssues, Worker.getRepeatUsers,
           Worker.getLongestUnresolved, Worker.getAIInsights;
    confine.
Qed.

(** ** The classification of a text *)

Lemma keyword_sentiment_range text : Worker.keyword_sentiment text ∈ sentiments.
Proof.
  unfold Worker.keyword_sentiment, sentiments.
  destruct (_ || _)%bool; [left|].
  destruct (_ || _)%bool; [right; left | right; right; left].
Qed.

Lemma analyzeSentiment_answered env text s out :
  ai_classify env (Str.take 500 text) = Ok (Some out) ->
  Worker.analyzeSentiment env text s
  = (Ok (if (String.eqb (label_read out) "POSITIVE"
             && Num.ltb Num.lit_0_6
                  match score out with
                  | Some x => if Num.truthy x then x else Num.of_Z 0
                  | None => Num.of_Z 0
                  end)%bool
         then "positive"
         else if (String.eqb (label_read out) "NEGATIVE"
                  && Num.ltb Num.lit_0_6
                       match score out with
                       | Some x => if Num.truthy x then x else Num.of_Z 0
                       | None => Num.of_Z 0
                       end)%bool
              then "negative" else "neutral"),
     logged s [(AiRun classifier_model, true)]).
Proof.
  intros Hrun. unfold Worker.analyzeSentiment.
  apply try_catch_ok. rewrite (bind_ok _ _ _ _ _ (classifier_ok env _ _ s Hrun)).
  unfold label_read. repeat destruct (_ && _)%bool; reflexivity.
Qed.

Lemma analyzeSentiment_null env text s :
  ai_classify env (Str.take 500 text) = Ok None ->
  Worker.analyzeSentiment env text s
  = (Ok (Worker.keyword_sentiment text), logged s [(AiRun classifier_model, true)]).
Proof.
  intros Hrun. unfold Worker.analyzeSentiment.
  erewrite try_catch_throw
    by (rewrite (bind_ok _ _ _ _ _ (classifier_ok env _ _ s Hrun)); reflexivity).
  reflexivity.
Qed.

Lemma analyzeSentiment_thrown env text s e :
  ai_classify env (Str.take 500 text) = Throw e ->
  Worker.analyzeSentiment env text s
  = (Ok (Worker.keyword_sentiment text), logged s [(AiRun classifier_model, false)]).
Proof.
  intros Hrun. unfold Worker.analyzeSentiment.
  erewrite try_catch_throw by (apply bind_throw, classifier_throw, Hrun).
  reflexivity.
Qed.

Lemma score_read_confident out :
  Num.ltb Num.lit_0_6
    match score out with
    | Some x => if Num.truthy x then x else Num.of_Z 0
    | None => Num.of_Z 0
    end = true <-> confident out.
Proof.
  unfold confident. destruct (score out) as [x|].
  - assert (Hx : Num.ltb Num.lit_0_6 (if Num.truthy x then x else Num.of_Z 0)
                 = Num.ltb Num.lit_0_6 x)
      by (destruct x as [[|]|[|]| |sx mx ex]; reflexivity).
    rewrite Hx. split.
    + intros H. exists x. split; [reflexivity | exact H].
    + intros (y & Hy & Hlt). injection Hy as ->. exact Hlt.
  - split; [intros H; discriminate H | intros (y & Hy & _); discriminate Hy].
Qed.

Lemma label_read_positive out :
  String.eqb (label_read out) "POSITIVE" = true <-> label out = Some "POSITIVE".
Proof.
  rewrite String.eqb_eq. unfold label_read.
  destruct (label out) as [[|c l]|]; split; intros H; try discriminate H; congruence.
Qed.

Lemma label_read_negative out :
  String.eqb (label_read out) "NEGATIVE" = true <->
  label out = Some "NEGATIVE" \/ label out = Some EmptyString \/ label out = None.
Proof.
  rewrite String.eqb_eq. unfold label_read.
  destruct (label out) as [[|c l]|]; split; intros H; auto.
  - rewrite H. auto.
  - destruct H as [H|[H|H]]; try discriminate H. congruence.
Qed.

Lemma chosen_sentiment (bp bn bc : bool) :
  (bp = true -> bn = true -> False) ->
  let r := if (bp && bc)%bool then "positive"
           else if (bn && bc)%bool then "negative" else "neutral" in
  r ∈ sentiments /\
  (r = "positive" <-> bp = true /\ bc = true) /\
  (r = "negative" <-> bn = true /\ bc = true).
Proof.
  intros Hexcl. cbn zeta. split.
  - unfold sentiments. destruct (bp && bc)%bool; [left|].
    destruct (bn && bc)%bool; [right; left | right; right; left].
  - destruct bp, bn, bc; cbn [andb]; try (exfalso; apply Hexcl; reflexivity);
      split; split; intros H; try discriminate H; try (destruct H; discriminate);
      auto.
Qed.

(** X6: [analyzeSentiment] never throws, makes one call (the run of the
    classifier) and returns one of positive, negative and neutral.  When
    the classifier answers, the keywords play no part: the result is
    positive exactly when the label is POSITIVE and the score is above
    0.6, negative exactly when the label is NEGATIVE, empty or missing and
    the score is above 0.6, and neutral otherwise, so a missing score or a
    score of exactly 0.6 gives neutral.  A null answer is handled like a
    failure of the run, by the keywords. *)
Theorem analyzeSentiment_outcome env text s :
  exists r ok,
    Worker.analyzeSentiment env text s = (Ok r, logged s [(AiRun classifier_model, ok)]) /\
    r ∈ sentiments /\
    (forall out,
        ai_classify env (Str.take 500 text) = Ok (Some out) ->
        (r = "positive" <-> label out = Some "POSITIVE" /\ confident out) /\
        (r = "negative" <->
         (label out = Some "NEGATIVE" \/ label out = Some EmptyString \/ label out = None)
         /\ confident out)) /\
    (ai_classify env (Str.take 500 text) = Ok None -> r = Worker.keyword_sentiment text).
Proof.
  destruct (ai_classify env (Str.take 500 text)) as [[out|]|e] eqn:Hrun.
  - rewrite (analyzeSentiment_answered env text s out Hrun).
    eexists _, true. split; [reflexivity|].
    match goal with
    | |- context [if (?bp && ?bc)%bool then _ else if (?bn && ?bc)%bool then _ else _] =>
        destruct (chosen_sentiment bp bn bc) as (Hin & Hp & Hn)
    end.
    { intros Hp Hn. apply String.eqb_eq in Hp, Hn. rewrite Hp in Hn. discriminate Hn. }
    split; [exact Hin|]. split; [|intros H; discriminate H].
    intros out' Hout. injection Hout as <-.
    rewrite Hp, Hn, label_read_positive, label_read_negative, score_read_confident.
    split; reflexivity.
  - rewrite (analyzeSentiment_null env text s Hrun). eexists _, true.
    split; [reflexivity|]. split; [apply keyword_sentiment_range|].
    split; [intros out H; discriminate H | reflexivity].
  - rewrite (analyzeSentiment_thrown env text s e Hrun). eexists _, false.
    split; [reflexivity|]. split; [apply keyword_sentiment_range|].
    split; [intros out H; discriminate H | intros H; discriminate H].
Qed.

(** ** The batch of [seedDatabase] *)

Lemma analyzeSentiment_range env text s :
  exists r ok,
    Worker.analyzeSentiment env text s = (Ok r, logged s [(AiRun classifier_model, ok)]) /\
    r ∈ sentiments.
Proof.
  destruct (ai_classify env (Str.take 500 text)) as [[out|]|e] eqn:Hrun.
  - rewrite (analyzeSentiment_answered env text s out Hrun).
    eexists _, true. split; [reflexivity|].
    match goal with
    | |- context [if (?bp && ?bc)%bool then _ else if (?bn && ?bc)%bool then _ else _] =>
        destruct (chosen_sentiment bp bn bc) as (Hin & _)
    end; [|exact Hin].
    intros Hp Hn. apply String.eqb_eq in Hp, Hn. rewrite Hp in Hn. discriminate Hn.
  - rewrite (analyzeSentiment_null env text s Hrun). eexists _, true.
    split; [reflexivity | apply keyword_sentiment_range].
  - rewrite (analyzeSentiment_thrown env text s e Hrun). eexists _, false.
    split; [reflexivity | apply keyword_sentiment_range].
Qed.

Lemma seed_one_outcome env acc m s :
  exists sent ok,
    sent ∈ sentiments /\
    ((db_insert_error env (seed_values m sent) = None /\
      Worker.seed_one env acc m s
      = (Ok ((fst acc ++ [ {| Worker.in_id := last_row_id s + 1;
                              Worker.in_title := m_title m;
                              Worker.in_sentiment := sent |} ])%list, snd acc),
         inserted (seed_values m sent) (logged s [(AiRun classifier_model, ok)])))
     \/
     (exists e,
         db_insert_error env (seed_values m sent) = Some e /\
         Worker.seed_one env acc m s
         = (Ok (fst acc, (snd acc ++ [ {| Worker.fl_title := m_title m;
                                          Worker.fl_error := e |} ])%list),
            logged s [(AiRun classifier_model, ok);
                      (DbInsert (seed_values m sent), false)]))).
Proof.
  destruct (analyzeSentiment_range env (m_title m ++ " " ++ m_description m) s)
    as (sent & ok & Hrun & Hsent).
  exists sent, ok. split; [exact Hsent|].
  unfold Worker.seed_one. fold (seed_values m sent).
  destruct (db_insert_error env (seed_values m sent)) as [e|] eqn:Hins.
  - right. exists e. split; [reflexivity|].
    erewrite try_catch_throw.
    2:{ erewrite bind_ok by exact Hrun. apply bind_throw.
        unfold Binding.db_insert. change (db_insert_error env _) with
          (db_insert_error env (seed_values m sent)). rewrite Hins. reflexivity. }
    cbn. rewrite <- app_assoc. reflexivity.
  - left. split; [reflexivity|].
    erewrite try_catch_ok; [reflexivity|].
    erewrite bind_ok by exact Hrun.
    erewrite bind_ok by (apply db_insert_ok; exact Hins). reflexivity.
Qed.

Lemma written_by_more now m entries r i :
  written_by now entries r i -> written_by now (m :: entries) r i.
Proof.
  intros (m' & sent & Hm & Hrest). exists m', sent. split; [right; exact Hm | exact Hrest].
Qed.

Lemma refused_by_more env m entries f :
  refused_by env entries f -> refused_by env (m :: entries) f.
Proof.
  intros (m' & sent & Hm & Hrest). exists m', sent. split; [right; exact Hm | exact Hrest].
Qed.

Lemma seed_loop_outcome env entries : forall acc s,
  exists ins fails,
    Worker.seed_loop env acc entries s
    = (Ok ((fst acc ++ ins)%list, (snd acc ++ fails)%list),
       snd (Worker.seed_loop env acc entries s)) /\
    seed_outcome env entries s (snd (Worker.seed_loop env acc entries s)) ins fails.
Proof.
  induction entries as [|m rest IH]; intros acc s.
  - exists [], []. cbn. rewrite !app_nil_r. destruct acc. split; [reflexivity|].
    exists []. rewrite app_nil_r. cbn. repeat split; try constructor. lia.
  - cbn [Worker.seed_loop].
    destruct (seed_one_outcome env acc m s) as (sent & ok & Hsent & [[Hins Hone]|(e & Hins & Hone)]).
    + rewrite (bind_ok _ _ _ _ _ Hone).
      match type of Hone with _ = (Ok ?a, ?s1) =>
        destruct (IH a s1) as (ins & fails & Hrun & new & Hr & Hl & Hc & Hk & Hw & Hid & Hf & Hlen)
      end.
      cbn [fst snd] in Hrun. rewrite Hrun. cbn [snd].
      exists ({| Worker.in_id := last_row_id s + 1; Worker.in_title := m_title m;
                 Worker.in_sentiment := sent |} :: ins), fails.
      split; [rewrite <- app_assoc; reflexivity|].
      exists (seed_row (last_row_id s + 1) (clock s) m sent :: new).
      cbn [rows last_row_id clock kv inserted logged] in Hr, Hl, Hc, Hk, Hw, Hid.
      repeat split.
      * rewrite Hr, <- app_assoc. reflexivity.
      * rewrite Hl. cbn [length]. lia.
      * exact Hc.
      * exact Hk.
      * constructor.
        -- exists m, sent. repeat split; [left | exact Hsent].
        -- eapply Forall2_impl; [exact Hw|]. intros r i. apply written_by_more.
      * cbn [map length id seed_row]. rewrite Hid.
        rewrite (seqZ_cons (last_row_id s + 1)) by lia. repeat f_equal; lia.
      * eapply Forall_impl; [exact Hf|]. intros f. apply refused_by_more.
      * cbn [length]. lia.
    + rewrite (bind_ok _ _ _ _ _ Hone).
      match type of Hone with _ = (Ok ?a, ?s1) =>
        destruct (IH a s1) as (ins & fails & Hrun & new & Hr & Hl & Hc & Hk & Hw & Hid & Hf & Hlen)
      end.
      cbn [fst snd] in Hrun. rewrite Hrun. cbn [snd].
      exists ins, ({| Worker.fl_title := m_title m; Worker.fl_error := e |} :: fails).
      split; [rewrite <- app_assoc; reflexivity|].
      exists new. cbn [rows last_row_id clock kv logged] in Hr, Hl, Hc, Hk, Hw, Hid.
      repeat split; try assumption.
      * eapply Forall2_impl; [exact Hw|]. intros r i. apply written_by_more.
      * constructor.
        -- exists m, sent. repeat split; [left | exact Hsent | exact Hins].
        -- eapply Forall_impl; [exact Hf|]. intros f. apply refused_by_more.
      * cbn [length]. lia.
Qed.

Lemma seed_after_deletes env entries s :
  deletes_ok env ->
  Worker.seedDatabaseWith env entries s
  = (out ← Worker.seed_loop env ([], []) entries;
     mret (Worker.json_response (Worker.seed_payload (fst out) (snd out)))) (purged s).
Proof.
  intros Hok. unfold Worker.seedDatabaseWith, purged.
  assert (forall key, key ∈ Worker.seed_keys ->
            forall s0, Binding.cache_delete env key s0 = (Ok tt, deleted key s0)) as Hdel
    by (intros key Hkey s0; apply cache_delete_ok, Hok, Hkey).
  unfold Worker.seed_keys in Hdel.
  rewrite (bind_ok _ _ _ _ _ (Hdel "stats" ltac:(set_solver) _)).
  rewrite (bind_ok _ _ _ _ _ (Hdel "top-issues" ltac:(set_solver) _)).
  rewrite (bind_ok _ _ _ _ _ (Hdel "repeat-users" ltac:(set_solver) _)).
  rewrite (bind_ok _ _ _ _ _ (Hdel "longest-unresolved" ltac:(set_solver) _)).
  rewrite (bind_ok _ _ _ _ _ (Hdel "ai-insights" ltac:(set_solver) _)).
  reflexivity.
Qed.

Lemma seed_run env entries s :
  deletes_ok env ->
  exists ins fails,
    Worker.seedDatabaseWith env entries s
    = (Ok (Worker.json_response (Worker.seed_payload ins fails)),
       snd (Worker.seedDatabaseWith env entries s)) /\
    seed_outcome env entries (purged s) (snd (Worker.seedDatabaseWith env entries s)) ins fails.
Proof.
  intros Hok. rewrite (seed_after_deletes env entries s Hok).
  destruct (seed_loop_outcome env entries ([], []) (purged s)) as (ins & fails & Hrun & Hout).
  rewrite (bind_ok _ _ _ _ _ Hrun). cbn [mret M_ret fst snd app].
  exists ins, fails. split; [reflexivity | exact Hout].
Qed.

Lemma seed_aborted env entries s :
  ~ deletes_ok env ->
  exists e,
    fst (Worker.seedDatabaseWith env entries s) = Throw e /\
    rows (snd (Worker.seedDatabaseWith env entries s)) = rows s /\
    last_row_id (snd (Worker.seedDatabaseWith env entries s)) = last_row_id s.
Proof.
  intros Hnot. unfold Worker.seedDatabaseWith.
  seed_delete env s; [eauto|].
  seed_delete env (deleted "stats" s); [eauto|].
  seed_delete env (deleted "top-issues" (deleted "stats" s)); [eauto|].
  seed_delete env (deleted "repeat-users" (deleted "top-issues" (deleted "stats" s)));
    [eauto|].
  seed_delete env (deleted "longest-unresolved"
                     (deleted "repeat-users" (deleted "top-issues" (deleted "stats" s))));
    [eauto|].
  exfalso. apply Hnot. intros key Hkey. unfold Worker.seed_keys in Hkey.
  repeat (apply elem_of_cons in Hkey as [->|Hkey]; [assumption|]).
  apply elem_of_nil in Hkey. contradiction.
Qed.

Lemma deletes_ok_dec env : deletes_ok env \/ ~ deletes_ok env.
Proof.
  unfold deletes_ok, Worker.seed_keys.
  destruct (kv_delete_error env "stats") eqn:E1;
    [right; intros H; rewrite H in E1 by set_solver; discriminate|].
  destruct (kv_delete_error env "top-issues") eqn:E2;
    [right; intros H; rewrite H in E2 by set_solver; discriminate|].
  destruct (kv_delete_error env "repeat-users") eqn:E3;
    [right; intros H; rewrite H in E3 by set_solver; discriminate|].
  destruct (kv_delete_error env "longest-unresolved") eqn:E4;
    [right; intros H; rewrite H in E4 by set_solver; discriminate|].
  destruct (kv_delete_error env "ai-insights") eqn:E5;
    [right; intros H; rewrite H in E5 by set_solver; discriminate|].
  left. intros key Hkey.
  repeat (apply elem_of_cons in Hkey as [->|Hkey]; [assumption|]).
  apply elem_of_nil in Hkey. contradiction.
Qed.



Lemma analyzeSentiment_stateless env text s s' :
  fst (Worker.analyzeSentiment env text s) = fst (Worker.analyzeSentiment env text s').
Proof.
  destruct (ai_classify env (Str.take 500 text)) as [[out|]|e] eqn:Hrun.
  - rewrite !(analyzeSentiment_answered env text _ out Hrun). reflexivity.
  - rewrite !(analyzeSentiment_null env text _ Hrun). reflexivity.
  - rewrite !(analyzeSentiment_thrown env text _ e Hrun). reflexivity.
Qed.

Lemma sentiment_of_exists env :
  exists sent, sentiment_of env sent /\ forall m, sent m ∈ sentiments.
Proof.
  exists (fun m => match fst (Worker.analyzeSentiment env (entry_text m) Fixture.empty) with
                   | Ok r => r
                   | Throw _ => "neutral"
                   end).
  split.
  - intros m s. rewrite (analyzeSentiment_stateless env _ s Fixture.empty).
    destruct (analyzeSentiment_range env (entry_text m) Fixture.empty)
      as (r & ok & -> & _). reflexivity.
  - intros m.
    destruct (analyzeSentiment_range env (entry_text m) Fixture.empty)
      as (r & ok & -> & Hr). exact Hr.
Qed.

Lemma seeded_rows_cons first now sent m ms :
  seeded_rows first now sent (m :: ms)
  = seed_row first now m (sent m) :: seeded_rows (first + 1) now sent ms.
Proof.
  unfold seeded_rows. cbn [length]. rewrite seqZ_cons by lia. cbn [zip_with].
  repeat f_equal; lia.
Qed.

Lemma seeded_items_cons first sent m ms :
  seeded_items first sent (m :: ms)
  = {| Worker.in_id := first; Worker.in_title := m_title m;
       Worker.in_sentiment := sent m |} :: seeded_items (first + 1) sent ms.
Proof.
  unfold seeded_items. cbn [length]. rewrite seqZ_cons by lia. cbn [zip_with].
  repeat f_equal; lia.
Qed.

Lemma refusals_cons env sent m rest :
  refusals env sent (m :: rest)
  = match db_insert_error env (seed_values m (sent m)) with
    | Some e => {| Worker.fl_title := m_title m; Worker.fl_error := e |}
                  :: refusals env sent rest
    | None => refusals env sent rest
    end.
Proof.
  unfold refusals. cbn [omap list_omap].
  destruct (db_insert_error env (seed_values m (sent m))); reflexivity.
Qed.

Lemma accepted_cons env sent m rest :
  accepted env sent (m :: rest)
  = match db_insert_error env (seed_values m (sent m)) with
    | Some _ => accepted env sent rest
    | None => m :: accepted env sent rest
    end.
Proof.
  unfold accepted. rewrite filter_cons.
  destruct (db_insert_error env (seed_values m (sent m))).
  - rewrite decide_False by discriminate. reflexivity.
  - rewrite decide_True by reflexivity. reflexivity.
Qed.

Lemma seed_one_report env sent acc m s :
  sentiment_of env sent ->
  exists ok,
    match db_insert_error env (seed_values m (sent m)) with
    | None =>
        Worker.seed_one env acc m s
        = (Ok ((fst acc ++ [ {| Worker.in_id := last_row_id s + 1;
                                Worker.in_title := m_title m;
                                Worker.in_sentiment := sent m |} ])%list, snd acc),
           inserted (seed_values m (sent m)) (logged s [(AiRun classifier_model, ok)]))
    | Some e =>
        Worker.seed_one env acc m s
        = (Ok (fst acc, (snd acc ++ [ {| Worker.fl_title := m_title m;
                                         Worker.fl_error := e |} ])%list),
           logged s [(AiRun classifier_model, ok);
                     (DbInsert (seed_values m (sent m)), false)])
    end.
Proof.
  intros Hsent.
  destruct (analyzeSentiment_range env (entry_text m) s) as (r & ok & Hrun & _).
  pose proof (Hsent m s) as Hr. rewrite Hrun in Hr. cbn [fst] in Hr.
  injection Hr as ->. exists ok.
  unfold entry_text in Hrun. unfold Worker.seed_one. fold (seed_values m (sent m)).
  destruct (db_insert_error env (seed_values m (sent m))) as [e|] eqn:Hins.
  - erewrite try_catch_throw.
    2:{ erewrite bind_ok by exact Hrun. apply bind_throw.
        unfold Binding.db_insert. change (db_insert_error env _) with
          (db_insert_error env (seed_values m (sent m))). rewrite Hins. reflexivity. }
    cbn. rewrite <- app_assoc. reflexivity.
  - erewrite try_catch_ok; [reflexivity|].
    erewrite bind_ok by exact Hrun.
    erewrite bind_ok by (apply db_insert_ok; exact Hins). reflexivity.
Qed.

Lemma seed_loop_report env sent entries :
  sentiment_of env sent ->
  forall acc s,
    exists s',
      Worker.seed_loop env acc entries s
      = (Ok ((fst acc ++ seeded_items (last_row_id s + 1) sent
                           (accepted env sent entries))%list,
             (snd acc ++ refusals env sent entries)%list), s') /\
      rows s' = (rows s ++ seeded_rows (last_row_id s + 1) (clock s) sent
                             (accepted env sent entries))%list /\
      last_row_id s'
      = last_row_id s + Z.of_nat (length (accepted env sent entries)) /\
      clock s' = clock s /\ kv s' = kv s.
Proof.
  intros Hsent. induction entries as [|m rest IH]; intros acc s.
  - exists s. cbn. rewrite !app_nil_r. destruct acc. repeat split. lia.
  - cbn [Worker.seed_loop]. rewrite accepted_cons, refusals_cons.
    destruct (seed_one_report env sent acc m s Hsent) as [ok Hone].
    destruct (db_insert_error env (seed_values m (sent m))) as [e|] eqn:Hins.
    + rewrite (bind_ok _ _ _ _ _ Hone).
      match type of Hone with _ = (Ok ?a, ?s1) =>
        destruct (IH a s1) as (s' & Hrun & Hr & Hl & Hc & Hk)
      end.
      exists s'. cbn [fst snd rows last_row_id clock kv logged] in *.
      rewrite Hrun, <- app_assoc. split; [reflexivity|]. repeat split; assumption.
    + rewrite (bind_ok _ _ _ _ _ Hone).
      match type of Hone with _ = (Ok ?a, ?s1) =>
        destruct (IH a s1) as (s' & Hrun & Hr & Hl & Hc & Hk)
      end.
      exists s'. cbn [fst snd rows last_row_id clock kv inserted logged] in *.
      rewrite Hrun, <- app_assoc, seeded_items_cons, seeded_rows_cons. cbn [app].
      split; [reflexivity|]. repeat split.
      * rewrite Hr, <- app_assoc. reflexivity.
      * rewrite Hl. cbn [length]. lia.
      * exact Hc.
      * exact Hk.
Qed.




Lemma table_ok_append s s' new :
  table_ok s ->
  rows s' = (rows s ++ new)%list ->
  last_row_id s' = last_row_id s + Z.of_nat (length new) ->
  map id new = seqZ (last_row_id s + 1) (Z.of_nat (length new)) ->
  table_ok s'.
Proof.
  intros [Hnd Hle] Hr Hl Hid. unfold table_ok. rewrite Hr, Hl, map_app. split.
  - apply NoDup_app. split; [exact Hnd|]. split; [|rewrite Hid; apply NoDup_seqZ].
    intros i Hi Hi'. rewrite Hid in Hi'. apply elem_of_seqZ in Hi'.
    apply (list_elem_of_fmap id) in Hi as (r & -> & Hr0). specialize (Hle r Hr0). lia.
  - intros r Hin. apply elem_of_app in Hin as [Hin|Hin].
    + specialize (Hle r Hin). lia.
    + assert (id r ∈ map id new) as Hi by (apply (list_elem_of_fmap_2 id), Hin).
      rewrite Hid in Hi. apply elem_of_seqZ in Hi. lia.
Qed.

(** X8: [seedDatabase] keeps the table well formed, whatever the bindings
    do: if the ids are distinct and none exceeds the row counter before
    the request, the same holds after it. *)
Theorem seed_keeps_ids_distinct env entries s :
  table_ok s -> table_ok (snd (Worker.seedDatabaseWith env entries s)).
Proof.
  intros Hs. destruct (deletes_ok_dec env) as [Hok|Hnot].
  - destruct (seed_run env entries s Hok)
      as (ins & fails & _ & new & Hr & Hl & _ & _ & _ & Hid & _).
    apply (table_ok_append s _ new Hs Hr Hl Hid).
  - destruct (seed_aborted env entries s Hnot) as (e & _ & Hr & Hl).
    destruct Hs as [Hnd Hle]. unfold table_ok. rewrite Hr, Hl. split; assumption.
Qed.

Lemma seed_keeps_ids_distinct_witness :
  table_ok (snd (Worker.seedDatabase Fixture.healthy Fixture.two_records)).
Proof.
  apply (seed_keeps_ids_distinct Fixture.healthy mockFeedback Fixture.two_records).
  split.
  - apply (bool_decide_unpack _). vm_compute. exact I.
  - intros r Hr. cbn in Hr.
    repeat (apply elem_of_cons in Hr as [->|Hr]; [cbn; lia|]).
    apply elem_of_nil in Hr. contradiction.
Defined.

Lemma purged_lookup s v : kv (purged s) !! view_key v = None.
Proof. unfold purged. cbn [kv deleted]. destruct v; cbn [view_key]; simplify_map_eq; reflexivity. Qed.

Lemma meanwhile_run reqs : forall s,
  exists s',
    meanwhile reqs s = (Ok tt, s') /\
    ((forall r, r ∈ reqs -> adds_no_entry r) ->
     forall key, kv s !! key = None -> kv s' !! key = None).
Proof.
  induction reqs as [|r rest IH]; intros s.
  - exists s. split; [reflexivity | auto].
  - cbn [meanwhile].
    assert (exists u, try_catch (r;; mret tt) (fun _ => mret tt) s = (Ok u, snd (r s)))
      as [[] Hr].
    { unfold try_catch, mbind, M_bind. destruct (r s) as [[a|e] s1]; eexists; reflexivity. }
    rewrite (bind_ok _ _ _ _ _ Hr).
    destruct (IH (snd (r s))) as (s' & Hrun & Hkeep). exists s'. split; [exact Hrun|].
    intros Hquiet key Hkey. apply Hkeep.
    + intros r' Hr'. apply Hquiet. right. exact Hr'.
    + apply (Hquiet r); [left | exact Hkey].
Qed.

Lemma seed_loop_among_run env others :
  (forall k r, r ∈ others k -> adds_no_entry r) ->
  forall entries k acc s,
    exists out s',
      seed_loop_among env others k acc entries s = (Ok out, s') /\
      forall key, kv s !! key = None -> kv s' !! key = None.
Proof.
  intros Hquiet. destruct (sentiment_of_exists env) as (sent & Hsent & _).
  induction entries as [|m rest IH]; intros k acc s; cbn [seed_loop_among];
    destruct (meanwhile_run (others k) s) as (s1 & Hm & Hkeep);
    rewrite (bind_ok _ _ _ _ _ Hm).
  - exists acc, s1. split; [reflexivity|]. apply Hkeep, Hquiet.
  - destruct (seed_one_report env sent acc m s1 Hsent) as [ok Hone].
    destruct (db_insert_error env (seed_values m (sent m))) as [e|];
      rewrite (bind_ok _ _ _ _ _ Hone);
      match type of Hone with _ = (Ok ?a, ?s2) =>
        destruct (IH (S k) a s2) as (out & s' & Hrun & Hrest)
      end;
      exists out, s'; (split; [exact Hrun|]);
      intros key Hkey; apply Hrest; cbn [kv logged inserted];
      apply (Hkeep (Hquiet k)), Hkey.
Qed.

Lemma absent_deleted keys key s :
  absent keys s -> absent (key :: keys) (deleted key s).
Proof.
  intros Habs key' Hin. cbn [kv deleted]. apply lookup_delete_None.
  apply elem_of_cons in Hin as [->|Hin]; [left; reflexivity | right; apply Habs, Hin].
Qed.

Lemma absent_meanwhile keys reqs s :
  (forall r, r ∈ reqs -> adds_no_entry r) ->
  absent keys s ->
  exists s', meanwhile reqs s = (Ok tt, s') /\ absent keys s'.
Proof.
  intros Hquiet Habs. destruct (meanwhile_run reqs s) as (s' & Hrun & Hkeep).
  exists s'. split; [exact Hrun|]. intros key Hin. apply (Hkeep Hquiet), Habs, Hin.
Qed.

(** With no other request served, the interleaved run is the handler. *)
Lemma seed_loop_alone env others entries :
  forall k acc s,
    (forall k', (k <= k')%nat -> others k' = []) ->
    seed_loop_among env others k acc entries s = Worker.seed_loop env acc entries s.
Proof.
  induction entries as [|m rest IH]; intros k acc s Hnone;
    cbn [seed_loop_among Worker.seed_loop]; rewrite (Hnone k) by lia; cbn [meanwhile].
  - reflexivity.
  - unfold mbind, M_bind, mret, M_ret.
    destruct (Worker.seed_one env acc m s) as [[a|e] s1]; [|reflexivity].
    apply IH. intros k' Hk'. apply Hnone. lia.
Qed.

Lemma seed_alone env others entries s :
  (forall k, others k = []) ->
  seed_among env others entries s = Worker.seedDatabaseWith env entries s.
Proof.
  intros Hnone. unfold seed_among, Worker.seedDatabaseWith. rewrite !Hnone.
  cbn [meanwhile]. unfold mbind, M_bind, mret, M_ret.
  repeat (match goal with
          | |- context [Binding.cache_delete env ?key ?s0] =>
              destruct (Binding.cache_delete env key s0) as [[[]|?] ?]; [|reflexivity]
          end).
  rewrite (seed_loop_alone env others entries) by (intros; apply Hnone). reflexivity.
Qed.

(** X9: take a run of [seedDatabase] whose deletes succeed, with any other
    requests served between its steps.  If none of those requests puts an
    entry in the cache (as a request for a cached view that misses does),
    then, whatever the cache held before, the next request for any of the
    five cached views misses, at any later time, and an aggregate view is
    then computed from the table as the run has left it. *)
Theorem views_are_fresh_after_seed rt env others entries s env' v dt :
  deletes_ok env ->
  (forall k r, r ∈ others k -> adds_no_entry r) ->
  0 <= dt ->
  let s1 := tick dt (snd (seed_among env others entries s)) in
  cache_miss (view_key v) s1 /\
  (is_aggregate v ->
   kv_get_error env' (view_key v) = None -> db_reads_ok env' ->
   kv_put_error env' (view_key v) = None ->
   fst (handler rt env' v s1) = Ok (Worker.json_response (fresh_payload rt v s1))).
Proof.
  intros Hok Hquiet Hdt. cbn zeta.
  assert (Hdel : forall key, key ∈ Worker.seed_keys ->
            forall s0, Binding.cache_delete env key s0 = (Ok tt, deleted key s0))
    by (intros key Hkey s0; apply cache_delete_ok, Hok, Hkey).
  unfold Worker.seed_keys in Hdel.
  assert (Habs : absent ["ai-insights"; "longest-unresolved"; "repeat-users";
                         "top-issues"; "stats"]
                        (snd (seed_among env others entries s))).
  { unfold seed_among.
    rewrite (bind_ok _ _ _ _ _ (Hdel "stats" ltac:(set_solver) _)).
    assert (absent ["stats"] (deleted "stats" s)) as H1
        by (apply absent_deleted; intros key Hin; apply elem_of_nil in Hin; contradiction).
    destruct (absent_meanwhile _ _ _ (Hquiet 1%nat) H1) as (s1 & Hm1 & Ha1).
    rewrite (bind_ok _ _ _ _ _ Hm1).
    rewrite (bind_ok _ _ _ _ _ (Hdel "top-issues" ltac:(set_solver) _)).
    destruct (absent_meanwhile _ _ _ (Hquiet 2%nat) (absent_deleted _ "top-issues" _ Ha1))
      as (s2 & Hm2 & Ha2).
    rewrite (bind_ok _ _ _ _ _ Hm2).
    rewrite (bind_ok _ _ _ _ _ (Hdel "repeat-users" ltac:(set_solver) _)).
    destruct (absent_meanwhile _ _ _ (Hquiet 3%nat) (absent_deleted _ "repeat-users" _ Ha2))
      as (s3 & Hm3 & Ha3).
    rewrite (bind_ok _ _ _ _ _ Hm3).
    rewrite (bind_ok _ _ _ _ _ (Hdel "longest-unresolved" ltac:(set_solver) _)).
    destruct (absent_meanwhile _ _ _ (Hquiet 4%nat)
                (absent_deleted _ "longest-unresolved" _ Ha3))
      as (s4 & Hm4 & Ha4).
    rewrite (bind_ok _ _ _ _ _ Hm4).
    rewrite (bind_ok _ _ _ _ _ (Hdel "ai-insights" ltac:(set_solver) _)).
    pose proof (absent_deleted _ "ai-insights" _ Ha4) as Ha5.
    destruct (seed_loop_among_run env others Hquiet entries 5%nat ([], [])
                (deleted "ai-insights" s4))
      as (out & s5 & Hrun & Hkeep).
    rewrite (bind_ok _ _ _ _ _ Hrun). cbn [mret M_ret snd].
    intros key Hin. apply Hkeep, Ha5, Hin. }
  assert (Hmiss : cache_miss (view_key v)
                    (tick dt (snd (seed_among env others entries s)))).
  { unfold cache_miss, cached_text. cbn [kv tick].
    rewrite (Habs (view_key v)); [reflexivity|].
    destruct v; cbn [view_key]; set_solver. }
  split; [exact Hmiss|].
  intros Hv Hget Hdb Hput.
  destruct (aggregate_populated rt env' v _ Hv Hget Hmiss Hdb Hput) as [events ->].
  reflexivity.
Qed.

Lemma views_are_fresh_after_seed_witness :
  cache_miss "stats"
    (tick 10 (snd (seed_among Fixture.healthy
                     (fun _ => [Worker.getRecentIssues Fixture.rt Fixture.healthy])
                     mockFeedback
                     (stored "stats" "stale" 300 Fixture.two_records)))).
Proof.
  destruct (views_are_fresh_after_seed Fixture.rt Fixture.healthy
              (fun _ => [Worker.getRecentIssues Fixture.rt Fixture.healthy])
              mockFeedback
              (stored "stats" "stale" 300 Fixture.two_records) Fixture.healthy Stats 10)
    as [H _].
  - intros key _. reflexivity.
  - intros k r Hr. apply list_elem_of_singleton in Hr. subst r.
    intros s0 key Hkey. exact Hkey.
  - lia.
  - exact H.
Defined.

(** ** ORDER BY with LIMIT *)

Lemma take_order_by_desc {A} (key : A -> Z) n (l : list A) :
  top_by key n l (take n (Sql.order_by_desc key l)).
Proof.
  pose proof (order_by_desc_perm key l) as Hperm.
  pose proof (order_by_desc_descending key l) as Hdesc.
  set (sorted := Sql.order_by_desc key l) in *.
  repeat split.
  - rewrite length_take, Hperm. reflexivity.
  - rewrite <- Hperm. apply sublist_submseteq, sublist_take.
  - apply descending_take, Hdesc.
  - intros x Hx. rewrite <- Hperm in Hx. apply list_elem_of_lookup in Hx as [k Hk].
    destruct (decide (k < n)%nat) as [Hlt|Hge].
    + left. apply elem_of_take. eauto.
    + right. apply lookup_lt_Some in Hk as Hbound. split.
      * rewrite length_take. lia.
      * intros y Hy. apply elem_of_take in Hy as (i & Hi & Hin).
        apply (Hdesc i k); [lia | assumption | assumption].
Qed.

(** X10: the recent issues are the five newest rows of the table, newest
    first (all the rows when there are at most five): every row returned
    is a row of the table, returned no more often than it occurs, and a
    row left out is no newer than any row returned. *)
Theorem recent_rows l : top_by created_at 5 l (Sql.recent l).
Proof. apply take_order_by_desc. Qed.

(** X11: the longest unresolved issues are the five oldest unresolved
    rows, oldest first (all of them when there are at most five); an
    unresolved row left out is no older than any row returned.  The days
    open of a row created no later than the time of the request are the
    whole days elapsed since its creation. *)
Theorem longest_unresolved_rows now l :
  let out := Sql.longest_unresolved now l in
  length out = Nat.min 5 (length (open_records l)) /\
  (forall row, row ∈ out ->
     exists r, r ∈ l /\ resolved_at r = None /\ row = unresolved_row now r) /\
  (forall i j a b, (i < j)%nat -> out !! i = Some a -> out !! j = Some b ->
                   Sql.lu_created_at a <= Sql.lu_created_at b) /\
  (forall r, r ∈ l -> resolved_at r = None ->
     unresolved_row now r ∈ out \/
     (length out = 5%nat /\
      forall row, row ∈ out -> Sql.lu_created_at row <= created_at r)) /\
  (forall row, row ∈ out -> Sql.lu_created_at row <= now ->
     0 <= Sql.days_open row /\
     86400 * Sql.days_open row <= now - Sql.lu_created_at row
       < 86400 * (Sql.days_open row + 1)).
Proof.
  cbn zeta. unfold Sql.longest_unresolved, Sql.order_by_asc.
  fold (open_records l). fold (unresolved_row now).
  destruct (take_order_by_desc (fun r => - created_at r) 5 (open_records l))
    as (Hlen & Hsub & Hdesc & Hall).
  set (oldest := take 5 (Sql.order_by_desc (fun r => - created_at r) (open_records l))) in *.
  split; [rewrite length_map; exact Hlen|].
  split; [|split; [|split]].
  - intros row Hrow. apply (list_elem_of_fmap (unresolved_row now)) in Hrow as (r & -> & Hr).
    assert (r ∈ open_records l) as Hin by (eapply elem_of_submseteq; eassumption).
    apply list_elem_of_filter in Hin as [Hopen Hin]. exists r. repeat split; try assumption.
    unfold Sql.unresolved in Hopen. destruct (resolved_at r); [discriminate | reflexivity].
  - intros i j a b Hij Ha Hb.
    apply list_lookup_fmap_Some in Ha as (ra & -> & Ha).
    apply list_lookup_fmap_Some in Hb as (rb & -> & Hb).
    specialize (Hdesc i j ra rb Hij Ha Hb). cbn in *. lia.
  - intros r Hr Hopen.
    assert (r ∈ open_records l) as Hin.
    { apply list_elem_of_filter. split; [|exact Hr]. unfold Sql.unresolved. rewrite Hopen.
      reflexivity. }
    destruct (Hall r Hin) as [Hout|[Hfull Hle]].
    + left. apply (list_elem_of_fmap_2 (unresolved_row now)), Hout.
    + right. split; [rewrite length_map; exact Hfull|].
      intros row Hrow. apply (list_elem_of_fmap (unresolved_row now)) in Hrow as (r' & -> & Hr').
      specialize (Hle r' Hr'). cbn in *. lia.
  - intros row Hrow Hpast.
    apply (list_elem_of_fmap (unresolved_row now)) in Hrow as (r & -> & _). cbn in *.
    pose proof (Z.quot_rem' (now - created_at r) 86400) as Hqr.
    pose proof (Z.rem_bound_pos (now - created_at r) 86400 ltac:(lia) ltac:(lia)) as Hrem.
    pose proof (Z.quot_pos (now - created_at r) 86400 ltac:(lia) ltac:(lia)). lia.
Qed.

(** X12: the feedback sent to the summarizer is made of the twenty newest
    of the records created strictly less than seven days before the
    request, newest first (all of them when there are at most twenty); a
    record created exactly seven days before, or earlier, is never sent. *)
Theorem insights_sample_rows now l :
  top_by created_at 20 (last_week now l) (Sql.insights_sample now l) /\
  (length (Sql.insights_sample now l) <= 20)%nat /\
  (forall r, r ∈ Sql.insights_sample now l -> r ∈ l /\ now - 604800 < created_at r) /\
  (forall r, created_at r <= now - 604800 -> r ∉ Sql.insights_sample now l).
Proof.
  pose proof (take_order_by_desc created_at 20 (last_week now l)) as Htop.
  change (take 20 (Sql.order_by_desc created_at (last_week now l)))
    with (Sql.insights_sample now l) in Htop.
  assert (Hin : forall r, r ∈ Sql.insights_sample now l ->
                          r ∈ l /\ now - 604800 < created_at r).
  { intros r Hr. destruct Htop as (_ & Hsub & _).
    assert (r ∈ last_week now l) as Hweek by (eapply elem_of_submseteq; eassumption).
    apply list_elem_of_filter in Hweek as [Hnew Hl]. split; [exact Hl | lia]. }
  split; [exact Htop|]. split; [|split; [exact Hin|]].
  - destruct Htop as (Hlen & _). rewrite Hlen. lia.
  - intros r Hold Hr. apply Hin in Hr as [_ Hnew]. lia.
Qed.

(** ** The top issues *)

Lemma top_issues_unfold l :
  Sql.top_issues l
  = take 5 (Sql.order_by_desc Sql.ti_count
              (top_issue_candidates
                 (remove_dups (map (fun r => Some (title r)) (open_records l)))
                 (open_records l))).
Proof. reflexivity. Qed.

Lemma open_records_titled t l :
  filter (fun r => Some (title r) = Some t) (open_records l) = issue_records t l.
Proof.
  unfold open_records, issue_records. rewrite list_filter_filter.
  apply list_filter_iff. intros r. split.
  - intros [Ht Ho]. split; [exact Ho | congruence].
  - intros [Ho Ht]. split; [congruence | exact Ho].
Qed.

Lemma issue_candidates_cons k keys sel :
  top_issue_candidates (k :: keys) sel
  = (match filter (fun r => Some (title r) = k) sel with
     | r :: rest => [ {| Sql.ti_title := title r;
                         Sql.ti_count := Z.of_nat (length (r :: rest));
                         Sql.ti_sentiment := sentiment r |} ]
     | [] => []
     end ++ top_issue_candidates keys sel)%list.
Proof.
  unfold top_issue_candidates. cbn [map omap snd].
  destruct (filter (fun r => Some (title r) = k) sel); reflexivity.
Qed.

Lemma issue_candidates_elem keys l row :
  row ∈ top_issue_candidates keys (open_records l) <->
  exists t r,
    Some t ∈ keys /\ head (issue_records t l) = Some r /\
    row = {| Sql.ti_title := t;
             Sql.ti_count := Z.of_nat (length (issue_records t l));
             Sql.ti_sentiment := sentiment r |}.
Proof.
  induction keys as [|k keys IH].
  - split; [intros H; apply elem_of_nil in H; contradiction|].
    intros (t & r & H & _). apply elem_of_nil in H. contradiction.
  - rewrite issue_candidates_cons, elem_of_app, IH. clear IH. split.
    + intros [Hk|(t & r & Ht & Hrow)].
      * destruct k as [t|].
        -- rewrite open_records_titled in Hk.
           destruct (issue_records t l) as [|r rest] eqn:Hrec;
             [apply elem_of_nil in Hk; contradiction|].
           apply list_elem_of_singleton in Hk.
           assert (r ∈ issue_records t l) as Hr by (rewrite Hrec; left).
           apply list_elem_of_filter in Hr as [[_ Ht] _].
           exists t, r. rewrite Hrec. split; [left|].
           split; [reflexivity|]. rewrite Hk. f_equal. exact Ht.
        -- destruct (filter _ (open_records l)) as [|r rest] eqn:Hrec;
             [apply elem_of_nil in Hk; contradiction|].
           assert (r ∈ r :: rest) as Hr by left. rewrite <- Hrec in Hr.
           apply list_elem_of_filter in Hr as [Hr _]. discriminate Hr.
      * exists t, r. split; [right; apply Ht | exact Hrow].
    + intros (t & r & Ht & Hhead & ->). apply elem_of_cons in Ht as [<-|Ht].
      * left. rewrite open_records_titled.
        destruct (issue_records t l) as [|r' rest] eqn:Hrec; [discriminate Hhead|].
        cbn in Hhead. injection Hhead as ->. apply list_elem_of_singleton. f_equal.
        assert (r ∈ issue_records t l) as Hr by (rewrite Hrec; left).
        apply list_elem_of_filter in Hr as [[_ Htitle] _]. symmetry. exact Htitle.
      * right. exists t, r. auto.
Qed.

Lemma issue_candidates_NoDup keys l :
  NoDup keys ->
  NoDup (map Sql.ti_title (top_issue_candidates keys (open_records l))).
Proof.
  induction 1 as [|k keys Hk Hkeys IH]; [constructor|].
  rewrite issue_candidates_cons, map_app. apply NoDup_app. split; [|split; [|exact IH]].
  - destruct (filter _ _); [constructor | apply NoDup_singleton].
  - intros t Ht Hin.
    apply (list_elem_of_fmap Sql.ti_title) in Hin as (row & -> & Hrow).
    apply issue_candidates_elem in Hrow as (t' & r & Ht' & _ & ->). cbn in Ht.
    destruct (filter _ (open_records l)) as [|r0 rest] eqn:Hrec;
      [apply elem_of_nil in Ht; contradiction|].
    apply list_elem_of_singleton in Ht. cbn in Ht.
    assert (r0 ∈ r0 :: rest) as Hr0 by left. rewrite <- Hrec in Hr0.
    apply list_elem_of_filter in Hr0 as [Hr0 _]. subst k t'. contradiction.
Qed.

(** X13: the top-issues statement of [getTopIssues] yields at most five rows,
    one per title and never two for the same title, in descending order of
    count.  The count of a row is the number of unresolved records with its
    title, which is at least one, and its sentiment is that of one of those
    records.  Every title of an unresolved record has its row in the result,
    unless the result is full with five rows of at least as many records. *)
Theorem top_issues_rows l :
  (length (Sql.top_issues l) <= 5)%nat /\
  NoDup (map Sql.ti_title (Sql.top_issues l)) /\
  descending Sql.ti_count (Sql.top_issues l) /\
  (forall row, row ∈ Sql.top_issues l ->
     Sql.ti_count row = Z.of_nat (length (issue_records (Sql.ti_title row) l)) /\
     1 <= Sql.ti_count row /\
     exists r, r ∈ issue_records (Sql.ti_title row) l /\
               Sql.ti_sentiment row = sentiment r) /\
  (forall r, r ∈ l -> Sql.unresolved r = true ->
     (exists row, row ∈ Sql.top_issues l /\ Sql.ti_title row = title r) \/
     (length (Sql.top_issues l) = 5%nat /\
      forall row, row ∈ Sql.top_issues l ->
        Z.of_nat (length (issue_records (title r) l)) <= Sql.ti_count row)).
Proof.
  rewrite top_issues_unfold.
  set (keys := remove_dups (map (fun r => Some (title r)) (open_records l))).
  set (cands := top_issue_candidates keys (open_records l)).
  destruct (take_order_by_desc Sql.ti_count 5 cands) as (Hlen & Hsub & Hdesc & Hall).
  set (out := take 5 (Sql.order_by_desc Sql.ti_count cands)) in *.
  split; [rewrite Hlen; lia|]. split.
  { apply (sublist_NoDup _ (map Sql.ti_title (Sql.order_by_desc Sql.ti_count cands))).
    - rewrite (order_by_desc_perm Sql.ti_count cands).
      apply issue_candidates_NoDup, NoDup_remove_dups.
    - apply (fmap_sublist Sql.ti_title), sublist_take. }
  split; [exact Hdesc|]. split.
  - intros row Hrow.
    assert (row ∈ cands) as Hc by (eapply elem_of_submseteq; eassumption).
    apply issue_candidates_elem in Hc as (t & r & _ & Hhead & ->). cbn.
    destruct (issue_records t l) as [|r' rest] eqn:Hrec; [discriminate Hhead|].
    cbn in Hhead. injection Hhead as ->.
    split; [reflexivity|]. split; [cbn [length]; lia|].
    exists r. split; [left | reflexivity].
  - intros r Hr Hopen.
    assert (r ∈ issue_records (title r) l) as Hrec
        by (apply list_elem_of_filter; split; [split; [exact Hopen | reflexivity] | exact Hr]).
    destruct (issue_records (title r) l) as [|r0 rest] eqn:Hrecs;
      [apply elem_of_nil in Hrec; contradiction|].
    pose (row := {| Sql.ti_title := title r;
                    Sql.ti_count := Z.of_nat (length (r0 :: rest));
                    Sql.ti_sentiment := sentiment r0 |}).
    assert (row ∈ cands) as Hc.
    { apply issue_candidates_elem. exists (title r), r0. rewrite Hrecs.
      split; [|split; reflexivity].
      apply elem_of_remove_dups, (list_elem_of_fmap_2 (fun r => Some (title r))).
      apply list_elem_of_filter. split; [exact Hopen | exact Hr]. }
    destruct (Hall row Hc) as [Hin|[Hfull Hmin]].
    + left. exists row. split; [exact Hin | reflexivity].
    + right. split; [exact Hfull|]. intros row' Hrow'. apply (Hmin row' Hrow').
Qed.

(** ** The repeat-user count of the statistics *)

Lemma repeated_email u l :
  Some u ∈ map fst (filter (fun g => (1 < length (snd g))%nat)
                           (Sql.group_by user_email l))
  <-> (2 <= length (records_of u l))%nat.
Proof.
  unfold Sql.group_by, records_of. split.
  - intros H. apply (list_elem_of_fmap fst) in H as ([k g] & Hk & Hg). cbn in Hk. subst k.
    apply list_elem_of_filter in Hg as [Hlen Hg]. cbn in Hlen.
    apply (list_elem_of_fmap (fun k => (k, filter (fun r => user_email r = k) l))) in Hg
      as (k & Heq & _).
    injection Heq as <- ->. lia.
  - intros Hlen.
    apply (list_elem_of_fmap fst).
    exists (Some u, filter (fun r => user_email r = Some u) l). split; [reflexivity|].
    apply list_elem_of_filter. split; [cbn; lia|].
    apply list_elem_of_fmap. exists (Some u). split; [reflexivity|].
    apply elem_of_remove_dups.
    destruct (filter (fun r => user_email r = Some u) l) as [|r rest] eqn:Hrec;
      [cbn in Hlen; lia|].
    assert (r ∈ r :: rest) as Hr by left. rewrite <- Hrec in Hr.
    apply list_elem_of_filter in Hr as [Hu Hr]. rewrite <- Hu.
    apply list_elem_of_fmap_2. exact Hr.
Qed.

Lemma records_of_other u u' l :
  u' <> u ->
  records_of u' (filter (fun r => user_email r <> Some u) l) = records_of u' l.
Proof.
  intros Hne. unfold records_of. rewrite list_filter_filter.
  apply list_filter_iff. intros r. split; [intros [H _]; exact H|].
  intros H. split; [exact H | congruence].
Qed.

Lemma two_records_each us :
  forall l, NoDup us ->
    (forall u, u ∈ us -> (2 <= length (records_of u l))%nat) ->
    (2 * length us <= length l)%nat.
Proof.
  induction us as [|u us IH]; intros l Hnd Hall; [cbn; lia|].
  apply NoDup_cons in Hnd as [Hu Hnd].
  specialize (IH (filter (fun r => user_email r <> Some u) l) Hnd).
  assert (2 * length us <= length (filter (fun r => user_email r <> Some u) l))%nat as Hrest.
  { apply IH. intros u' Hu'. rewrite records_of_other; [apply Hall; right; exact Hu'|].
    intros ->. contradiction. }
  pose proof (Hall u ltac:(left)) as Hfirst. unfold records_of in Hfirst.
  pose proof (Permutation_length (filter_app_complement
                                    (fun r => user_email r = Some u) l)) as Hsplit.
  rewrite length_app in Hsplit. cbn [length]. lia.
Qed.

(** X14: the repeat-user figure of [getStats] is the number of distinct
    users with at least two records, resolved or not.  Twice that figure
    never exceeds the total number of records, and every user listed by
    [getRepeatUsers] is among the users counted, so that the list is never
    longer than the figure. *)
Theorem repeat_user_count_counts l :
  exists us : list string,
    NoDup us /\
    Sql.repeat_user_count l = Z.of_nat (length us) /\
    (forall u, u ∈ us <-> (2 <= length (records_of u l))%nat) /\
    2 * Sql.repeat_user_count l <= Sql.count_all l /\
    (forall row, row ∈ Sql.repeat_users l -> Sql.ru_user_email row ∈ us) /\
    Z.of_nat (length (Sql.repeat_users l)) <= Sql.repeat_user_count l.
Proof.
  set (repeated := map fst (filter (fun g => (1 < length (snd g))%nat)
                                   (Sql.group_by user_email l))).
  set (selected := filter (fun r => is_Some (user_email r) ∧ user_email r ∈ repeated) l).
  exists (remove_dups (omap user_email selected)).
  assert (Hmem : forall u, u ∈ remove_dups (omap user_email selected)
                           <-> (2 <= length (records_of u l))%nat).
  { intros u. rewrite elem_of_remove_dups, list_elem_of_omap. split.
    - intros (r & Hr & Hu). apply list_elem_of_filter in Hr as [[_ Hrep] _].
      rewrite Hu in Hrep. apply repeated_email, Hrep.
    - intros Hlen. unfold records_of in Hlen.
      destruct (filter (fun r => user_email r = Some u) l) as [|r rest] eqn:Hrec;
        [cbn in Hlen; lia|].
      assert (r ∈ r :: rest) as Hr by left. rewrite <- Hrec in Hr.
      apply list_elem_of_filter in Hr as [Hu Hr]. exists r. split; [|exact Hu].
      apply list_elem_of_filter. split; [|exact Hr]. rewrite Hu. split; [eauto|].
      apply repeated_email. unfold records_of. rewrite Hrec. exact Hlen. }
  assert (Hrows : forall row, row ∈ Sql.repeat_users l ->
                    Sql.ru_user_email row ∈ remove_dups (omap user_email selected)).
  { intros row Hrow. rewrite repeat_users_unfold in Hrow.
    apply elem_of_take in Hrow as (i & Hi & _).
    assert (row ∈ Sql.order_by_desc Sql.complaint_count
                    (repeat_user_candidates
                       (remove_dups (map user_email (repeat_user_selection l)))
                       (repeat_user_selection l))) as Hin
        by (apply list_elem_of_lookup; eauto).
    rewrite order_by_desc_perm in Hin.
    apply candidates_elem in Hin as (u & _ & -> & Hlen). cbn. apply Hmem.
    etransitivity; [exact Hlen|]. unfold complaints, records_of.
    rewrite <- (list_filter_filter (fun r => Sql.unresolved r = true)
                  (fun r => user_email r = Some u)).
    apply length_filter. }
  split; [apply NoDup_remove_dups|]. split; [reflexivity|]. split; [exact Hmem|].
  split; [|split; [exact Hrows|]].
  - change (Sql.repeat_user_count l)
      with (Z.of_nat (length (remove_dups (omap user_email selected)))).
    unfold Sql.count_all.
    pose proof (two_records_each (remove_dups (omap user_email selected)) l
                  (NoDup_remove_dups _) (fun u Hu => proj1 (Hmem u) Hu)).
    lia.
  - change (Sql.repeat_user_count l)
      with (Z.of_nat (length (remove_dups (omap user_email selected)))).
    apply inj_le. rewrite <- (length_map Sql.ru_user_email).
    apply submseteq_length, NoDup_submseteq.
    + rewrite repeat_users_unfold.
      apply (sublist_NoDup _ (map Sql.ru_user_email
               (Sql.order_by_desc Sql.complaint_count
                  (repeat_user_candidates
                     (remove_dups (map user_email (repeat_user_selection l)))
                     (repeat_user_selection l))))).
      * rewrite order_by_desc_perm. apply candidates_NoDup, NoDup_remove_dups.
      * apply (fmap_sublist Sql.ru_user_email), sublist_take.
    + intros u Hu. apply (list_elem_of_fmap Sql.ru_user_email) in Hu as (row & -> & Hrow).
      apply Hrows, Hrow.
Qed.

(** ** The detail of one record *)

Lemma by_id_found l r :
  NoDup (map id l) -> r ∈ l -> Detail.by_id (id r) l = Some r.
Proof.
  unfold Detail.by_id. induction l as [|x l IH]; intros Hnd Hr.
  - apply elem_of_nil in Hr. contradiction.
  - cbn [map] in Hnd. apply NoDup_cons in Hnd as [Hx Hnd]. rewrite filter_cons.
    apply elem_of_cons in Hr as [->|Hr].
    + destruct (decide (id x = id x)) as [_|Hne]; [reflexivity | contradiction].
    + destruct (decide (id x = id r)) as [Heq|_]; [|apply IH; assumption].
      exfalso. apply Hx. rewrite Heq. apply (list_elem_of_fmap_2 id), Hr.
Qed.

Lemma by_id_missing l i :
  (forall r, r ∈ l -> id r <> i) -> Detail.by_id i l = None.
Proof.
  intros Hall. unfold Detail.by_id.
  destruct (filter (fun r => id r = i) l) as [|r rest] eqn:Hf; [reflexivity|].
  assert (r ∈ r :: rest) as Hr by left. rewrite <- Hf in Hr.
  apply list_elem_of_filter in Hr as [Hi Hr]. destruct (Hall r Hr Hi).
Qed.

Lemma truthy_email_some u : u <> EmptyString -> Detail.truthy_email (Some u) = Some u.
Proof. destruct u; [contradiction | reflexivity]. Qed.

(** X15: asked for a record that exists and carries a non-empty user
    identifier, [getFeedbackDetail] issues its two statements and answers
    200 with the record and a history.  The history holds the ten newest
    records of that user, or all of them when there are fewer, newest
    first; the record itself is part of it unless ten records of the user
    that are at least as new fill it. *)
Theorem detail_of_known_record rt failure table r u :
  NoDup (map id table) ->
  r ∈ table ->
  user_email r = Some u -> u <> EmptyString ->
  failure (Detail.ById (id r)) = None ->
  failure (Detail.History u) = None ->
  exists history,
    Detail.getFeedbackDetail rt failure (id r) table
    = (Ok {| status := 200; content_type := "application/json";
             body := Json.stringify (Detail.detail_json rt r history) |},
       [(Detail.ById (id r), true); (Detail.History u, true)]) /\
    top_by created_at 10 (records_of u table) history /\
    (r ∈ history \/
     (length history = 10%nat /\
      forall h, h ∈ history -> created_at r <= created_at h)).
Proof.
  intros Hnd Hr Hu Hne Hq1 Hq2. exists (Detail.user_history u table).
  pose proof (take_order_by_desc created_at 10 (records_of u table)) as Htop.
  split; [|split; [exact Htop|]].
  - unfold Detail.getFeedbackDetail, Detail.read. rewrite Hq1, (by_id_found _ _ Hnd Hr).
    cbn [Detail.bind]. rewrite Hu, (truthy_email_some _ Hne), Hq2. reflexivity.
  - destruct Htop as (_ & _ & _ & Hall). apply Hall.
    apply list_elem_of_filter. split; assumption.
Qed.

Lemma detail_of_known_record_witness :
  exists history,
    Detail.getFeedbackDetail Fixture.rt (fun _ => None) 5 Fixture.same_title_twice
    = (Ok {| status := 200; content_type := "application/json";
             body := Json.stringify
                       (Detail.detail_json Fixture.rt
                          (Fixture.row 5 "Dashboard loading takes 5+ seconds"
                             (Some "dev@company.com") (Some "negative") 997840000 None)
                          history) |},
       [(Detail.ById 5, true); (Detail.History "dev@company.com", true)]) /\
    length history = 2%nat.
Proof.
  destruct (detail_of_known_record Fixture.rt (fun _ => None) Fixture.same_title_twice
              (Fixture.row 5 "Dashboard loading takes 5+ seconds"
                 (Some "dev@company.com") (Some "negative") 997840000 None)
              "dev@company.com")
    as (history & Hrun & (Hlen & _) & _).
  - apply (bool_decide_unpack _). vm_compute. exact I.
  - right. left.
  - reflexivity.
  - discriminate.
  - reflexivity.
  - reflexivity.
  - exists history. split; [exact Hrun | exact Hlen].
Defined.

(** X16: a record without a user identifier, or with the empty string for
    one, gets an empty history: [getFeedbackDetail] issues the statement by
    id only, so that the answer is 200 whatever would become of the history
    statement and whatever other records share the empty identifier. *)
Theorem detail_of_anonymous_record rt failure table r :
  NoDup (map id table) ->
  r ∈ table ->
  user_email r = None \/ user_email r = Some EmptyString ->
  failure (Detail.ById (id r)) = None ->
  Detail.getFeedbackDetail rt failure (id r) table
  = (Ok {| status := 200; content_type := "application/json";
           body := Json.stringify (Detail.detail_json rt r []) |},
     [(Detail.ById (id r), true)]).
Proof.
  intros Hnd Hr Hu Hq. unfold Detail.getFeedbackDetail, Detail.read.
  rewrite Hq, (by_id_found _ _ Hnd Hr). cbn [Detail.bind].
  destruct Hu as [-> | ->]; reflexivity.
Qed.

Lemma detail_of_anonymous_record_witness :
  Detail.getFeedbackDetail Fixture.rt
    (fun q => match q with
              | Detail.ById _ => None
              | Detail.History _ => Some "D1_ERROR"
              end) 7
    [ Fixture.row 7 "Billing confusion" (Some EmptyString) None 997000000 None;
      Fixture.row 8 "R2 upload failing" (Some EmptyString) None 998000000 None ]
  = (Ok {| status := 200; content_type := "application/json";
           body := Json.stringify
                     (Detail.detail_json Fixture.rt
                        (Fixture.row 7 "Billing confusion" (Some EmptyString) None
                           997000000 None) []) |},
     [(Detail.ById 7, true)]).
Proof.
  apply (detail_of_anonymous_record Fixture.rt
           (fun q => match q with
                     | Detail.ById _ => None
                     | Detail.History _ => Some "D1_ERROR"
                     end)
           [ Fixture.row 7 "Billing confusion" (Some EmptyString) None 997000000 None;
             Fixture.row 8 "R2 upload failing" (Some EmptyString) None 998000000 None ]
           (Fixture.row 7 "Billing confusion" (Some EmptyString) None 997000000 None)).
  - apply (bool_decide_unpack _). vm_compute. exact I.
  - left.
  - right. reflexivity.
  - reflexivity.
Defined.

(** X17: asked for an identifier that no record carries,
    [getFeedbackDetail] answers 404 with the error object after the
    statement by id alone; no history is looked up. *)
Theorem detail_of_unknown_id rt failure table i :
  (forall r, r ∈ table -> id r <> i) ->
  failure (Detail.ById i) = None ->
  Detail.getFeedbackDetail rt failure i table
  = (Ok {| status := 404; content_type := "application/json";
           body := Json.stringify (JObj [("error", JStr "Feedback not found")]) |},
     [(Detail.ById i, true)]).
Proof.
  intros Hall Hq. unfold Detail.getFeedbackDetail, Detail.read.
  rewrite Hq, (by_id_missing _ _ Hall). reflexivity.
Qed.

Lemma detail_of_unknown_id_witness :
  Detail.getFeedbackDetail Fixture.rt (fun _ => None) 0 Fixture.same_title_twice
  = (Ok {| status := 404; content_type := "application/json";
           body := Json.stringify (JObj [("error", JStr "Feedback not found")]) |},
     [(Detail.ById 0, true)]).
Proof.
  apply (detail_of_unknown_id Fixture.rt (fun _ => None) Fixture.same_title_twice 0).
  - intros r Hr. apply elem_of_cons in Hr as [->|Hr]; [discriminate|].
    apply elem_of_cons in Hr as [->|Hr]; [discriminate|].
    apply elem_of_nil in Hr. contradiction.
  - reflexivity.
Defined.




(** ** A view served while the table is being seeded *)

Lemma bind_ret {A B} (a : A) (f : A -> M B) s : (mret a ≫= f) s = f a s.
Proof. reflexivity. Qed.

Lemma live_entry_is_served rt env v s entry :
  kv_get_error env (view_key v) = None ->
  kv s !! view_key v = Some entry ->
  clock s < kv_expires entry ->
  kv_value entry <> EmptyString ->
  handler rt env v s
  = (Ok (Worker.json_response (kv_value entry)), logged s [(KvGet (view_key v), true)]).
Proof.
  intros Hget Hentry Hlive Hne.
  assert (Hcached : cached_text (view_key v) s = Some (kv_value entry)).
  { unfold cached_text. rewrite Hentry.
    destruct (clock s <? kv_expires entry) eqn:E; [reflexivity|].
    apply Z.ltb_ge in E. lia. }
  assert (Hhit : Worker.hit (Some (kv_value entry)) = Some (kv_value entry))
    by (destruct (kv_value entry); [contradiction | reflexivity]).
  destruct v; cbn [handler view_key] in *;
    unfold Worker.getStats, Worker.getTopIssues, Worker.getRepeatUsers,
           Worker.getLongestUnresolved, Worker.getAIInsights;
    rewrite (bind_ok _ _ _ _ _ (cache_get_ok env _ s Hget)), Hcached, Hhit;
    reflexivity.
Qed.

Lemma seed_loop_app env e1 e2 : forall acc s,
  Worker.seed_loop env acc (e1 ++ e2)%list s
  = (acc1 ← Worker.seed_loop env acc e1; Worker.seed_loop env acc1 e2) s.
Proof.
  induction e1 as [|m rest IH]; intros acc s; [reflexivity|].
  cbn [app Worker.seed_loop]. unfold mbind, M_bind.
  destruct (Worker.seed_one env acc m s) as [[a|e] s1]; [|reflexivity].
  rewrite IH. reflexivity.
Qed.

Lemma seed_loop_only_at env req : forall j entries k acc s,
  (j <= length entries)%nat ->
  seed_loop_among env (only_at (k + j) req) k acc entries s
  = (acc1 ← Worker.seed_loop env acc (take j entries);
     meanwhile [req];;
     Worker.seed_loop env acc1 (drop j entries)) s.
Proof.
  induction j as [|j IH]; intros entries k acc s Hj.
  - rewrite take_0, drop_0. cbn [Worker.seed_loop]. rewrite bind_ret.
    assert (Hlater : forall k', (S k <= k')%nat -> only_at (k + 0) req k' = []).
    { intros k' Hk'. unfold only_at.
      destruct (Nat.eqb_spec k' (k + 0)) as [->|_]; [lia | reflexivity]. }
    assert (Hnow : only_at (k + 0) req k = [req])
      by (unfold only_at; rewrite Nat.add_0_r, Nat.eqb_refl; reflexivity).
    destruct entries as [|m rest]; cbn [seed_loop_among Worker.seed_loop]; rewrite Hnow.
    + reflexivity.
    + unfold mbind at 1 3. unfold M_bind.
      destruct (meanwhile [req] s) as [[[]|e] s1]; [|reflexivity].
      unfold mbind, M_bind.
      destruct (Worker.seed_one env acc m s1) as [[a|e] s2]; [|reflexivity].
      apply seed_loop_alone, Hlater.
  - destruct entries as [|m rest]; [cbn in Hj; lia|].
    cbn [length] in Hj. cbn [seed_loop_among take drop Worker.seed_loop].
    assert (Hnow : only_at (k + S j) req k = []).
    { unfold only_at. destruct (Nat.eqb_spec k (k + S j)) as [H|_]; [lia | reflexivity]. }
    rewrite Hnow. cbn [meanwhile]. rewrite bind_ret.
    unfold mbind, M_bind.
    destruct (Worker.seed_one env acc m s) as [[a|e] s1]; [|reflexivity].
    replace (k + S j)%nat with (S k + j)%nat by lia.
    rewrite (IH rest (S k) a s1) by lia. reflexivity.
Qed.

Lemma fresh_payload_same rt v s s' :
  rows s = rows s' -> clock s = clock s' -> fresh_payload rt v s = fresh_payload rt v s'.
Proof.
  intros Hr Hc. destruct v; cbn [fresh_payload]; unfold stats_payload;
    rewrite ?Hr, ?Hc; reflexivity.
Qed.

(** X19: a request for an aggregate view that is served while
    [seedDatabase] runs, after its deletes and once [j] entries are
    processed, misses and stores the payload of the table as it is then.
    The run does not delete again: once it has returned, and until 300
    seconds have passed, a request for that view is answered from the
    cache with that payload, the payload of the table seeded with the
    first [j] entries only, although the table holds the rows of the whole
    batch. *)
Theorem view_served_during_seed_stays rt env entries j s env' v rt' env'' dt :
  deletes_ok env ->
  (j <= length entries)%nat ->
  is_aggregate v ->
  kv_get_error env' (view_key v) = None ->
  db_reads_ok env' ->
  kv_put_error env' (view_key v) = None ->
  0 <= dt < 300 ->
  kv_get_error env'' (view_key v) = None ->
  let s_mid := snd (Worker.seedDatabaseWith env (take j entries) s) in
  let s_end := snd (seed_among env (only_at (5 + j) (handler rt env' v)) entries s) in
  handler rt' env'' v (tick dt s_end)
  = (Ok (Worker.json_response (fresh_payload rt v s_mid)),
     logged (tick dt s_end) [(KvGet (view_key v), true)]) /\
  rows s_end = rows (snd (Worker.seedDatabaseWith env entries s)).
Proof.
  intros Hok Hj Hv Hget Hdb Hput Hdt Hget'. cbn zeta.
  destruct (sentiment_of_exists env) as (sent & Hsent & _).
  (* the run of the first [j] entries *)
  destruct (seed_loop_report env sent (take j entries) Hsent ([], []) (purged s))
    as (sA & HrunA & HrA & HlA & HcA & HkA).
  assert (Hmid : snd (Worker.seedDatabaseWith env (take j entries) s) = sA).
  { rewrite (seed_after_deletes env _ s Hok), (bind_ok _ _ _ _ _ HrunA). reflexivity. }
  rewrite Hmid.
  (* the request served then *)
  assert (HmissA : cache_miss (view_key v) sA).
  { unfold cache_miss, cached_text. rewrite HkA, purged_lookup. reflexivity. }
  destruct (aggregate_populated rt env' v sA Hv Hget HmissA Hdb Hput) as [events Hreq].
  replace (view_ttl v) with 300 in Hreq
    by (destruct v; try reflexivity; exfalso; apply Hv; reflexivity).
  set (sB := stored (view_key v) (fresh_payload rt v sA) 300 (logged sA events)) in *.
  assert (HmB : meanwhile [handler rt env' v] sA = (Ok tt, sB)).
  { cbn [meanwhile]. unfold try_catch, mbind, M_bind. rewrite Hreq. reflexivity. }
  (* the run of the other entries *)
  destruct (seed_loop_report env sent (drop j entries) Hsent
              (seeded_items (last_row_id (purged s) + 1) sent
                 (accepted env sent (take j entries)), refusals env sent (take j entries))
              sB)
    as (sC & HrunC & HrC & HlC & HcC & HkC).
  assert (Hend : snd (seed_among env (only_at (5 + j) (handler rt env' v)) entries s) = sC).
  { assert (Hdel : forall key, key ∈ Worker.seed_keys ->
              forall s0, Binding.cache_delete env key s0 = (Ok tt, deleted key s0))
      by (intros key Hkey s0; apply cache_delete_ok, Hok, Hkey).
    unfold Worker.seed_keys in Hdel. unfold seed_among.
    rewrite (bind_ok _ _ _ _ _ (Hdel "stats" ltac:(clear; set_solver) _)).
    change (only_at (5 + j) (handler rt env' v) 1%nat) with (@nil (M Response)).
    cbn [meanwhile]. rewrite bind_ret.
    rewrite (bind_ok _ _ _ _ _ (Hdel "top-issues" ltac:(clear; set_solver) _)).
    change (only_at (5 + j) (handler rt env' v) 2%nat) with (@nil (M Response)).
    cbn [meanwhile]. rewrite bind_ret.
    rewrite (bind_ok _ _ _ _ _ (Hdel "repeat-users" ltac:(clear; set_solver) _)).
    change (only_at (5 + j) (handler rt env' v) 3%nat) with (@nil (M Response)).
    cbn [meanwhile]. rewrite bind_ret.
    rewrite (bind_ok _ _ _ _ _ (Hdel "longest-unresolved" ltac:(clear; set_solver) _)).
    change (only_at (5 + j) (handler rt env' v) 4%nat) with (@nil (M Response)).
    cbn [meanwhile]. rewrite bind_ret.
    rewrite (bind_ok _ _ _ _ _ (Hdel "ai-insights" ltac:(clear; set_solver) _)).
    fold (purged s).
    erewrite bind_ok; [reflexivity|].
    rewrite (seed_loop_only_at env _ j entries 5 _ _ Hj).
    rewrite (bind_ok _ _ _ _ _ HrunA). cbn [app].
    rewrite (bind_ok _ _ _ _ _ HmB). exact HrunC. }
  rewrite Hend. split.
  - rewrite (live_entry_is_served rt' env'' v (tick dt sC)
               {| kv_value := fresh_payload rt v sA; kv_expires := clock sA + 300 |}).
    + reflexivity.
    + exact Hget'.
    + cbn [kv tick]. rewrite HkC. unfold sB. cbn [kv stored logged clock].
      apply lookup_insert_eq.
    + cbn [clock tick kv_expires]. rewrite HcC. unfold sB. cbn [clock stored logged]. lia.
    + apply fresh_payload_nonempty, Hv.
  - (* the table is that of the whole batch *)
    destruct (seed_loop_report env sent (drop j entries) Hsent
                (seeded_items (last_row_id (purged s) + 1) sent
                   (accepted env sent (take j entries)),
                 refusals env sent (take j entries)) sA)
      as (sD & HrunD & HrD & _).
    assert (Hfull : snd (Worker.seedDatabaseWith env entries s) = sD).
    { rewrite (seed_after_deletes env _ s Hok).
      rewrite <- (take_drop j entries) at 1.
      erewrite bind_ok; [reflexivity|].
      rewrite seed_loop_app, (bind_ok _ _ _ _ _ HrunA). exact HrunD. }
    rewrite Hfull, HrC, HrD. reflexivity.
Qed.

Lemma view_served_during_seed_stays_witness :
  fst (handler Fixture.rt Fixture.healthy Stats
         (tick 100
            (snd (seed_among Fixture.healthy
                    (only_at (5 + 3) (handler Fixture.rt Fixture.healthy Stats))
                    mockFeedback Fixture.two_records))))
  = Ok (Worker.json_response
          (fresh_payload Fixture.rt Stats
             (snd (Worker.seedDatabaseWith Fixture.healthy (take 3 mockFeedback)
                     Fixture.two_records)))).
Proof.
  destruct (view_served_during_seed_stays Fixture.rt Fixture.healthy mockFeedback 3
              Fixture.two_records Fixture.healthy Stats Fixture.rt Fixture.healthy 100)
    as [H _].
  - intros key _. reflexivity.
  - cbn. lia.
  - discriminate.
  - reflexivity.
  - intros q. reflexivity.
  - reflexivity.
  - lia.
  - reflexivity.
  - exact (f_equal fst H).
Defined.
